(** * DocumentR: the tax calculators of [Btax.py] and the retry policy of
      [DocumentR.py], embedded and checked against their specification.

    Numbers.  The amounts handled by [Btax.py] are Python [float]s, that is
    IEEE 754 binary64 values; they are embedded as Rocq's primitive [float],
    which is the same format with the same round-to-nearest-even operations.
    An [int] of the source (the literals [0], [91250], [365], ..., the [0, 0]
    returned after the bracket loop) stands for the float equal to it, to
    which Python promotes it when it meets a float operand; every integer
    literal of the embedded functions is exactly representable. *)

From Stdlib Require Import ZArith List Bool Lia String Ascii.
From Stdlib Require Import Floats.
Import ListNotations.

#[local] Set Warnings "-inexact-float".
#[local] Open Scope float_scope.

(** ** Python's builtins [min] and [max] on two arguments.

    [min(a, b)] keeps [a] unless [b < a]; [max(a, b)] keeps [a] unless
    [b > a].  The comparisons are IEEE comparisons, false on NaN. *)

Definition py_min (a b : float) : float := if b <? a then b else a.
Definition py_max (a b : float) : float := if a <? b then b else a.

(** The conversion of a Python [int] to a [float] (round to nearest even);
    exact on every integer of magnitude up to 2^53 and on the powers of two
    below 2^1024. *)
Definition float_of_int (z : Z) : float :=
  SF2Prim (binary_normalize prec emax z 0 false).

Module Btax.

(** *** Exceptions

    The arithmetic of [Btax.py] raises in two ways: a division by zero and
    the lookup of a key that a dict does not hold. *)

Inductive exception : Type :=
| ZeroDivisionError
| KeyError.

Inductive result (A : Type) : Type :=
| Ok (a : A)
| Raise (e : exception).
Arguments Ok {A} a.
Arguments Raise {A} e.

(** [a / b] on Python numbers: a divisor equal to zero ([0], [0.0] or
    [-0.0]) raises [ZeroDivisionError]; any other divisor, a NaN included,
    gives the IEEE quotient. *)
Definition py_div (a b : float) : result float :=
  if b =? 0 then Raise ZeroDivisionError else Ok (a / b).

(** [calculate_business_tax], Btax.py lines 30-35. *)
Definition calculate_business_tax (taxable_income : float) : float * float :=
  let tax_rate := 0.27 in
  let tax_amount := taxable_income * tax_rate in
  (tax_amount, tax_rate).

(** A row of the bracket table: [(min_income, max_income, rate, base_tax)]. *)
Definition bracket : Type := float * float * float * float.

Definition tax_brackets : list bracket :=
  [ (0, 91250, 0, 0);
    (91251, 365000, 0.07, 0);
    (365001, 550000, 0.21, 19162.50);
    (550001, infinity, 0.28, 58037.50) ].

(** The chained comparison [min_income <= taxable_income <= max_income]. *)
Definition in_bracket (b : bracket) (taxable_income : float) : bool :=
  let '(min_income, max_income, _, _) := b in
  (min_income <=? taxable_income) && (taxable_income <=? max_income).

(** The value returned from inside the loop for the row [b]. *)
Definition bracket_tax (b : bracket) (taxable_income : float) : float * float :=
  let '(min_income, _, rate, base_tax) := b in
  (base_tax + (taxable_income - min_income + 1) * rate, rate).

(** The [for] loop of [calculate_small_business_tax] over the rows still to
    be tried; the [nil] case is the [return 0, 0] after the loop. *)
Fixpoint bracket_loop (rows : list bracket) (taxable_income : float)
  : float * float :=
  match rows with
  | [] => (0, 0)
  | b :: rest =>
      if in_bracket b taxable_income then bracket_tax b taxable_income
      else bracket_loop rest taxable_income
  end.

(** [calculate_small_business_tax], Btax.py lines 37-50. *)
Definition calculate_small_business_tax (taxable_income : float)
  : float * float :=
  bracket_loop tax_brackets taxable_income.

(** A row of the asset table, as [calculate_depreciation] reads it. *)
Record asset_row : Type := {
  purchase_cost : float;
  expected_life : float
}.

Record depreciation : Type := {
  annual_depreciation : float;
  accumulated_depreciation : float;
  current_value : float
}.

(** [years_owned = (datetime.now() - row['purchase_date']).days / 365];
    [days] is the [.days] of the difference, an [int] (negative for a
    purchase date in the future).  The true division of two [int]s that are
    exact as floats is the float division of their conversions. *)
Definition years_owned (days : Z) : float :=
  float_of_int days / 365.

(** [calculate_depreciation], Btax.py lines 395-403, at a given number of
    [days] between the purchase date and now.  The division of line 397
    raises on an expected life of zero. *)
Definition calculate_depreciation (days : Z) (row : asset_row)
  : result depreciation :=
  let years_owned := years_owned days in
  match py_div (purchase_cost row) (expected_life row) with
  | Raise e => Raise e
  | Ok annual_depreciation =>
      let accumulated_depreciation :=
        py_min (years_owned * annual_depreciation) (purchase_cost row) in
      Ok {| annual_depreciation := annual_depreciation;
            accumulated_depreciation := accumulated_depreciation;
            current_value :=
              py_max (purchase_cost row - accumulated_depreciation) 0 |}
  end.

(** Taxable income on the Tax Calculator page, Btax.py lines 466-470: the
    deductions are totalled first (the total is displayed), then taken off
    the revenue. *)
Definition taxable_income_calculator
  (total_revenue total_expenses total_depreciation : float) : float :=
  let total_deductions := total_expenses + total_depreciation in
  py_max 0 (total_revenue - total_deductions).

(** Taxable income on the Reports page, Btax.py line 540. *)
Definition taxable_income_report
  (total_revenue total_expenses total_depreciation : float) : float :=
  py_max 0 (total_revenue - total_expenses - total_depreciation).

(** *** The totals of the tax pages *)

(** An expense as the tax pages read it: [expense['main_category']] and
    [expense['amount']]. *)
Record expense : Type := {
  main_category : string;
  amount : float
}.

(** The stored business profile: [business_data.get('business_type')],
    [.get('gross_revenue', 0)] and [.get('other_income', 0)]; a key that
    is not stored is [None]. *)
Record business : Type := {
  business_type : option string;
  gross_revenue : option float;
  other_income : option float
}.

(** [d.get(key, 0)] on a stored amount. *)
Definition get_or_zero (stored : option float) : float :=
  match stored with
  | Some v => v
  | None => 0
  end.

(** The accumulation [total += x] over [xs], from [0] and left to right.
    It is also what [sum(xs)] returns up to Python 3.11; from Python 3.12
    [sum] compensates the rounding errors of the additions. *)
Definition py_sum (xs : list float) : float := fold_left add xs 0.

(** A Python [dict] from category to amount; the order is the order of
    insertion. *)
Definition amounts_by_category : Type := list (string * float).

Fixpoint dict_get (key : string) (d : amounts_by_category) : option float :=
  match d with
  | [] => None
  | (k, v) :: rest => if String.eqb key k then Some v else dict_get key rest
  end.

(** [d[key] = value]: the value of a key already there is replaced where it
    stands, a new key goes to the end. *)
Fixpoint dict_set (key : string) (value : float) (d : amounts_by_category)
  : amounts_by_category :=
  match d with
  | [] => [(key, value)]
  | (k, v) :: rest =>
      if String.eqb key k then (k, value) :: rest
      else (k, v) :: dict_set key value rest
  end.

(** One round of the loop of the Reports page, Btax.py lines 533-537;
    [None] is the [KeyError] of [deductions[category] += ...] on a key that
    is not there. *)
Definition add_deduction (deductions : amounts_by_category) (e : expense)
  : option amounts_by_category :=
  let category := main_category e in
  let deductions :=
    match dict_get category deductions with
    | None => dict_set category 0 deductions
    | Some _ => deductions
    end in
  match dict_get category deductions with
  | Some v => Some (dict_set category (v + amount e) deductions)
  | None => None
  end.

Fixpoint categorize_from (deductions : amounts_by_category)
  (expenses_data : list expense) : option amounts_by_category :=
  match expenses_data with
  | [] => Some deductions
  | e :: rest =>
      match add_deduction deductions e with
      | Some deductions' => categorize_from deductions' rest
      | None => None
      end
  end.

(** [deductions = {}] followed by the loop. *)
Definition categorize (expenses_data : list expense)
  : option amounts_by_category :=
  categorize_from [] expenses_data.

(** The two calculators behind the test on the business type, Btax.py
    lines 474-479 and 541-544. *)
Definition tax_for (kind : option string) (taxable_income : float)
  : float * float :=
  match kind with
  | Some name =>
      if String.eqb name "Small Business Corporation"
      then calculate_small_business_tax taxable_income
      else calculate_business_tax taxable_income
  | None => calculate_business_tax taxable_income
  end.

(** The quotients [a['purchase_cost'] / a['expected_life']] of the
    generator, in the order of the assets; the first asset with an expected
    life of zero raises. *)
Fixpoint annual_depreciations (assets_data : list asset_row)
  : result (list float) :=
  match assets_data with
  | [] => Ok []
  | a :: rest =>
      match py_div (purchase_cost a) (expected_life a) with
      | Raise e => Raise e
      | Ok quotient =>
          match annual_depreciations rest with
          | Raise e => Raise e
          | Ok quotients => Ok (quotient :: quotients)
          end
      end
  end.

(** The tax summary of the Reports page, Btax.py lines 547-555. *)
Record tax_summary : Type := {
  summary_total_revenue : float;
  summary_total_expenses : float;
  summary_total_depreciation : float;
  summary_taxable_income : float;
  summary_estimated_tax : float;
  summary_tax_rate : float;
  summary_deductions : amounts_by_category
}.

(** The pages total their amounts with the builtin [sum], whose rounding
    depends on the interpreter (see [py_sum]); the pages are embedded over
    any such function. *)
Section Pages.
Variable builtin_sum : list float -> float.

Definition sum_of_expenses (expenses_data : list expense) : float :=
  builtin_sum (map amount expenses_data).

(** [sum(a['purchase_cost'] / a['expected_life'] for a in assets_data)]. *)
Definition sum_of_depreciation (assets_data : list asset_row) : result float :=
  match annual_depreciations assets_data with
  | Raise e => Raise e
  | Ok quotients => Ok (builtin_sum quotients)
  end.

(** What the Tax Calculator page shows, Btax.py lines 438-487:
    [(taxable_income, tax_amount, tax_rate)]. *)
Definition calculator_page (business_data : business)
  (expense_data : list expense) (asset_data : list asset_row)
  : result (float * float * float) :=
  let total_revenue :=
    get_or_zero (gross_revenue business_data)
    + get_or_zero (other_income business_data) in
  let total_expenses := sum_of_expenses expense_data in
  match sum_of_depreciation asset_data with
  | Raise e => Raise e
  | Ok total_depreciation =>
      let taxable_income :=
        taxable_income_calculator
          total_revenue total_expenses total_depreciation in
      let '(tax_amount, tax_rate) :=
        tax_for (business_type business_data) taxable_income in
      Ok (taxable_income, tax_amount, tax_rate)
  end.

(** The Reports page up to its summary, Btax.py lines 524-555: the totals,
    then the loop over the expenses, then the tax. *)
Definition report_summary (business_data : business)
  (expenses_data : list expense) (assets_data : list asset_row)
  : result tax_summary :=
  let total_revenue :=
    get_or_zero (gross_revenue business_data)
    + get_or_zero (other_income business_data) in
  let total_expenses := sum_of_expenses expenses_data in
  match sum_of_depreciation assets_data with
  | Raise e => Raise e
  | Ok total_depreciation =>
      match categorize expenses_data with
      | None => Raise KeyError
      | Some deductions =>
          let taxable_income :=
            taxable_income_report
              total_revenue total_expenses total_depreciation in
          let '(estimated_tax, tax_rate) :=
            tax_for (business_type business_data) taxable_income in
          Ok {| summary_total_revenue := total_revenue;
                summary_total_expenses := total_expenses;
                summary_total_depreciation := total_depreciation;
                summary_taxable_income := taxable_income;
                summary_estimated_tax := estimated_tax;
                summary_tax_rate := tax_rate;
                summary_deductions := deductions |}
      end
  end.

End Pages.

(** *** What the deductions are expected to hold *)

(** The amounts of the expenses of one category, in the order of the
    expenses. *)
Definition amounts_of (category : string) (expenses_data : list expense)
  : list float :=
  map amount
    (filter (fun e => String.eqb category (main_category e)) expenses_data).

(** The categories in the order in which they first occur. *)
Fixpoint first_occurrences (seen categories : list string) : list string :=
  match categories with
  | [] => []
  | c :: rest =>
      if existsb (String.eqb c) seen then first_occurrences seen rest
      else c :: first_occurrences (seen ++ [c]) rest
  end.

(** What the dict holds for a category after the loop, given what it held
    before. *)
Definition expected_amount (before : option float) (added : list float)
  : option float :=
  match before, added with
  | Some v, _ => Some (fold_left add added v)
  | None, [] => None
  | None, _ :: _ => Some (fold_left add added 0)
  end.

End Btax.

(** ** [DocumentR.py]: effects

    A run is a function of the trace of external events so far: it returns
    or raises, and extends the trace.  What the outside world answers is
    given by an [environment]: the n-th call of each service has a fixed
    outcome, so a run is deterministic and can be evaluated. *)

Module DocumentR.

(** A Python exception (an instance of [Exception]): its class and [str(e)]. *)
Record exn : Type := { exn_class : string; exn_text : string }.

Inductive outcome (A : Type) : Type :=
| Returns (a : A)
| Raises (e : exn).
Arguments Returns {A} a.
Arguments Raises {A} e.

(** The variables handed to a prompt: [{"doc_chunk": chunk}]. *)
Definition dict : Type := list (string * string).

(** An element of the list a [text2text-generation] pipeline returns. *)
Record generation : Type := { generated_text : string }.

(** An uploaded file: [file.name], [file.type], [file.getvalue()]. *)
Record uploaded_file : Type := {
  file_name : string;
  file_type : string;
  file_value : string
}.

(** The document stored by [main], DocumentR.py lines 302-309. *)
Record document_info : Type := {
  filename : string;
  file_url : option string;
  doc_type : string;
  text_content : string;
  chunk_count : nat
}.

(** The requests made to the storage bucket by [upload_file_to_firebase]. *)
Inductive storage_call : Type :=
| Bucket
| UploadFromString (blob_name data content_type : string)
| MakePublic (blob_name : string)
| PublicUrl (blob_name : string).

Inductive event : Type :=
| Invoke (template : string) (variables : dict)
| Random
| Sleep (seconds : float)
| Warning (message : string)
| Fallback (args : dict) (max_length : Z)
| Storage (call : storage_call)
| Now (format : string)
| Error (message : string)
| AddDocument (info : document_info)
| AddRefused (info : document_info).

Definition trace : Type := list event.

Definition is_invoke (ev : event) : bool :=
  match ev with Invoke _ _ => true | _ => false end.
Definition is_random (ev : event) : bool :=
  match ev with Random => true | _ => false end.
Definition is_fallback (ev : event) : bool :=
  match ev with Fallback _ _ => true | _ => false end.
Definition is_storage (ev : event) : bool :=
  match ev with Storage _ => true | _ => false end.
Definition is_upload (ev : event) : bool :=
  match ev with Storage (UploadFromString _ _ _) => true | _ => false end.
Definition is_add (ev : event) : bool :=
  match ev with AddDocument _ | AddRefused _ => true | _ => false end.

(** How many events of a kind a trace holds. *)
Definition count (kind : event -> bool) (tr : trace) : nat :=
  List.length (filter kind tr).

(** The seconds slept, in order. *)
Fixpoint sleeps (tr : trace) : list float :=
  match tr with
  | [] => []
  | Sleep s :: rest => s :: sleeps rest
  | _ :: rest => sleeps rest
  end.

(** The documents stored, in order: those whose request to Firestore
    returned. *)
Fixpoint documents (tr : trace) : list document_info :=
  match tr with
  | [] => []
  | AddDocument d :: rest => d :: documents rest
  | _ :: rest => documents rest
  end.

(** What the services answer: the hosted model behind a chain, the local
    fallback pipeline, [random.random()], the storage bucket, the
    [documents] collection of Firestore, the clock and the text extraction
    libraries. *)
Record environment : Type := {
  hosted_model : nat -> string -> dict -> outcome string;
  fallback_model : nat -> dict -> Z -> outcome (list generation);
  random_random : nat -> float;
  storage_service : nat -> storage_call -> outcome string;
  firestore_add : nat -> document_info -> outcome unit;
  strftime_now : string -> string;
  extract_text_from_file : uploaded_file -> outcome string;
  chunk_text : string -> list string;
  generate_thumbnail : uploaded_file -> outcome string
}.

Definition M (A : Type) : Type := trace -> outcome A * trace.

Definition ret {A : Type} (a : A) : M A := fun tr => (Returns a, tr).

Definition raise {A : Type} (e : exn) : M A := fun tr => (Raises e, tr).

Definition bind {A B : Type} (c : M A) (k : A -> M B) : M B :=
  fun tr =>
    match c tr with
    | (Returns a, tr') => k a tr'
    | (Raises e, tr') => (Raises e, tr')
    end.

(** [try: c  except Exception as e: handler e]. *)
Definition try_except {A : Type} (c : M A) (handler : exn -> M A) : M A :=
  fun tr =>
    match c tr with
    | (Returns a, tr') => (Returns a, tr')
    | (Raises e, tr') => handler e tr'
    end.

(** A call whose outcome is decided outside. *)
Definition lift {A : Type} (o : outcome A) : M A := fun tr => (o, tr).

Definition emit (ev : event) : M unit := fun tr => (Returns tt, tr ++ [ev]).

Declare Scope py_scope.
Delimit Scope py_scope with py.
Notation "x <- c ;; k" := (bind c (fun x => k))
  (at level 61, c at next level, right associativity) : py_scope.
Notation "c ;; k" := (bind c (fun _ => k))
  (at level 61, right associativity) : py_scope.

#[local] Open Scope py_scope.
#[local] Open Scope string_scope.

(** [needle in haystack] on strings. *)
Fixpoint contains (needle haystack : string) : bool :=
  String.prefix needle haystack
  || match haystack with
     | EmptyString => false
     | String _ rest => contains needle rest
     end.

(** The test ["429" in str(e)] of [process_with_retry]. *)
Definition rate_limited (e : exn) : bool := contains "429" (exn_text e).

(** [" ".join(items)]; an item that is [None] raises [TypeError]. *)
Fixpoint join_strings (sep : string) (items : list string) : string :=
  match items with
  | [] => ""
  | [s] => s
  | s :: rest => s ++ sep ++ join_strings sep rest
  end.

Fixpoint all_strings (items : list (option string)) : option (list string) :=
  match items with
  | [] => Some []
  | Some s :: rest => option_map (cons s) (all_strings rest)
  | None :: _ => None
  end.

Definition str_join (sep : string) (items : list (option string)) : M string :=
  match all_strings items with
  | Some strs => ret (join_strings sep strs)
  | None =>
      raise {| exn_class := "TypeError";
               exn_text := "sequence item: expected str instance, NoneType found" |}
  end.

(** [range(n)]. *)
Definition range (n : Z) : list Z := map Z.of_nat (seq 0 (Z.to_nat n)).

Section Services.
Variable env : environment.

(** [chain.invoke(variables)] for [chain = prompt | llm | StrOutputParser()]:
    one request to the hosted model. *)
Definition invoke (template : string) (variables : dict) : M string :=
  fun tr =>
    (hosted_model env (count is_invoke tr) template variables,
     (tr ++ [Invoke template variables])%list).

(** [random.random()]. *)
Definition random : M float :=
  fun tr =>
    (Returns (random_random env (count is_random tr)), (tr ++ [Random])%list).

(** [time.sleep(seconds)]. *)
Definition time_sleep (seconds : float) : M unit := emit (Sleep seconds).

Definition st_warning (message : string) : M unit := emit (Warning message).
Definition st_error (message : string) : M unit := emit (Error message).

(** [get_fallback_model()(args, max_length=max_length)]. *)
Definition call_fallback (args : dict) (max_length : Z)
  : M (list generation) :=
  fun tr =>
    (fallback_model env (count is_fallback tr) args max_length,
     (tr ++ [Fallback args max_length])%list).

(** [generations[0]['generated_text']]. *)
Definition first_generated_text (generations : list generation)
  : outcome string :=
  match generations with
  | g :: _ => Returns (generated_text g)
  | [] => Raises {| exn_class := "IndexError";
                    exn_text := "list index out of range" |}
  end.

(** The body of the loop of [process_with_retry] over the attempts still to
    be made; falling out of the loop returns [None].  The sum
    [(2 ** attempt) + random.random()] promotes the power to a float, which
    is exact for every attempt below 1024. *)
Fixpoint retry_loop (func : dict -> M string) (args : dict)
  (max_retries : Z) (attempts : list Z) : M (option string) :=
  match attempts with
  | [] => ret None
  | attempt :: rest =>
      try_except
        (v <- func args ;; ret (Some v))
        (fun e =>
           if rate_limited e && (attempt <? max_retries - 1)%Z then
             r <- random ;;
             let wait_time := (float_of_int (2 ^ attempt) + r)%float in
             time_sleep wait_time ;;
             retry_loop func args max_retries rest
           else if (attempt =? max_retries - 1)%Z then
             st_warning "API limit reached. Falling back to local model." ;;
             generations <- call_fallback args 100 ;;
             text <- lift (first_generated_text generations) ;;
             ret (Some text)
           else raise e)
  end.

(** [process_with_retry], DocumentR.py lines 103-117. *)
Definition process_with_retry (func : dict -> M string) (args : dict)
  (max_retries : Z) : M (option string) :=
  retry_loop func args max_retries (range max_retries).

End Services.

Section Application.
Variable env : environment.

Definition summary_prompt : string := "
    Please provide a concise summary of the following document chunk. 
    Focus on the main topics, key points, and important details:

    {doc_chunk}

    Summary:
    ".

Definition final_summary_prompt : string := "
    Please provide a concise overall summary of the following text:

    {combined_summary}

    Overall Summary:
    ".

(** The [for chunk in document_chunks] loop of [generate_document_summary];
    [summaries] is the list appended to. *)
Fixpoint summarize_chunks (document_chunks : list string)
  (summaries : list (option string)) : M (list (option string)) :=
  match document_chunks with
  | [] => ret summaries
  | chunk :: rest =>
      summary <- process_with_retry env (invoke env summary_prompt)
                   [("doc_chunk", chunk)] 3 ;;
      summarize_chunks rest (summaries ++ [summary])%list
  end.

(** [generate_document_summary], DocumentR.py lines 142-171. *)
Definition generate_document_summary (document_chunks : list string)
  : M (option string) :=
  summaries <- summarize_chunks document_chunks [] ;;
  combined_summary <- str_join " " summaries ;;
  process_with_retry env (invoke env final_summary_prompt)
    [("combined_summary", combined_summary)] 3.

(** The names bound at the top level of [DocumentR.py]: by its imports
    (lines 1-20) and by its [def]s.  No builtin is called [datetime]. *)
Definition module_globals : list string :=
  [ "st"; "firebase_admin"; "credentials"; "firestore"; "auth"; "storage";
    "PyPDF2"; "docx"; "io"; "BytesIO"; "Image"; "ImageDraw"; "pytesseract";
    "ChatPromptTemplate"; "ChatGoogleGenerativeAI"; "StrOutputParser";
    "RunnablePassthrough"; "ConversationBufferMemory"; "base64";
    "RecursiveCharacterTextSplitter"; "time"; "random"; "pipeline"; "json";
    "init_firebase_admin"; "get_llm"; "extract_text_from_file";
    "generate_thumbnail"; "chunk_text"; "process_with_retry";
    "get_fallback_model"; "upload_file_to_firebase";
    "generate_document_summary"; "query_documents"; "main" ].

(** Reading a global name inside a function of the module. *)
Definition load_global (name : string) : M unit :=
  if existsb (String.eqb name) module_globals then ret tt
  else raise {| exn_class := "NameError";
                exn_text := "name '" ++ name ++ "' is not defined" |}.

Definition storage (call : storage_call) : M string :=
  fun tr =>
    (storage_service env (count is_storage tr) call,
     (tr ++ [Storage call])%list).

(** [datetime.now().strftime(format)]. *)
Definition now_strftime (format : string) : M string :=
  load_global "datetime" ;;
  emit (Now format) ;;
  ret (strftime_now env format).

(** [upload_file_to_firebase], DocumentR.py lines 124-140. *)
Definition upload_file_to_firebase (user_id : string) (file : uploaded_file)
  : M (option string) :=
  try_except
    (storage Bucket ;;
     stamp <- now_strftime "%Y%m%d_%H%M%S" ;;
     let blob_name :=
       "documents/" ++ user_id ++ "/" ++ stamp ++ "_" ++ file_name file in
     storage (UploadFromString blob_name (file_value file) (file_type file)) ;;
     storage (MakePublic blob_name) ;;
     public_url <- storage (PublicUrl blob_name) ;;
     ret (Some public_url))
    (fun e =>
       st_error ("Error uploading file: " ++ exn_text e) ;;
       ret None).

(** [user_ref.collection('documents').add(info)], DocumentR.py lines
    302-309: a request to Firestore, outside any [try]; the document is
    stored when the request returns. *)
Definition add_document (info : document_info) : M unit :=
  fun tr =>
    match firestore_add env (count is_add tr) info with
    | Returns _ => (Returns tt, (tr ++ [AddDocument info])%list)
    | Raises e => (Raises e, (tr ++ [AddRefused info])%list)
    end.

(** One round of the [for file in uploaded_files] loop of [main],
    DocumentR.py lines 291-309, up to the document it stores. *)
Definition process_uploaded_file (user_id : string) (file : uploaded_file)
  : M document_info :=
  file_url <- upload_file_to_firebase user_id file ;;
  text <- lift (extract_text_from_file env file) ;;
  let text_chunks := chunk_text env text in
  thumbnail <- lift (generate_thumbnail env file) ;;
  let info :=
    {| filename := file_name file;
       file_url := file_url;
       doc_type := file_type file;
       text_content := text;
       chunk_count := List.length text_chunks |} in
  add_document info ;;
  ret info.

(** *** The summary as the specification words it

    Map the wrapped per-chunk prompt over the chunks, each on its own;
    collect the summaries; concatenate them; apply the wrapped second
    prompt to the concatenation. *)

Fixpoint map_m {A B : Type} (f : A -> M B) (items : list A) : M (list B) :=
  match items with
  | [] => ret []
  | x :: rest =>
      y <- f x ;;
      ys <- map_m f rest ;;
      ret (y :: ys)
  end.

Definition under_policy (template : string) (variables : dict)
  : M (option string) :=
  process_with_retry env (invoke env template) variables 3.

Definition summary_by_specification (document_chunks : list string)
  : M (option string) :=
  summaries <- map_m (fun chunk =>
                        under_policy summary_prompt [("doc_chunk", chunk)])
                 document_chunks ;;
  combined_summary <- str_join " " summaries ;;
  under_policy final_summary_prompt [("combined_summary", combined_summary)].

End Application.

(** *** The trace of a backoff

    What [failures] rate-limited attempts in a row leave in the trace, the
    first of them being [attempt], when [drawn] random numbers have been
    drawn before: a call of the chain, a random number and a pause, once
    for each. *)

Section Backoff.
Variable env : environment.
Variable template : string.
Variable variables : dict.

(** The pause before the retry that follows the failed [attempt]. *)
Definition wait_time (attempt drawn : nat) : float :=
  (float_of_int (2 ^ Z.of_nat attempt) + random_random env drawn)%float.

Fixpoint backoff (attempt failures drawn : nat) : trace :=
  match failures with
  | O => []
  | S more =>
      Invoke template variables :: Random :: Sleep (wait_time attempt drawn)
        :: backoff (S attempt) more (S drawn)
  end.

End Backoff.

(** *** Services to run against *)

Definition quota_error : exn :=
  {| exn_class := "ResourceExhausted";
     exn_text := "429 Resource has been exhausted (e.g. check quota)." |}.

Definition server_error : exn :=
  {| exn_class := "InternalServerError";
     exn_text := "500 An internal error has occurred." |}.

(** Services whose hosted model answers its n-th call by [answer n]. *)
Definition services (answer : nat -> outcome string) : environment :=
  {| hosted_model := fun n _ _ => answer n;
     fallback_model := fun _ _ _ => Returns [ {| generated_text := "local text" |} ];
     random_random := fun _ => 0.25%float;
     storage_service := fun _ _ => Returns "https://storage.example/blob";
     firestore_add := fun _ _ => Returns tt;
     strftime_now := fun _ => "20240101_120000";
     extract_text_from_file := fun f => Returns (file_value f);
     chunk_text := fun text => [text];
     generate_thumbnail := fun _ => Returns "png" |}.

(** The quota is exhausted twice, then the model answers. *)
Definition third_time_lucky : environment :=
  services (fun n => match n with
                     | 0 | 1 => Raises quota_error
                     | _ => Returns "a summary"
                     end).

(** The hosted model is down. *)
Definition server_down : environment :=
  services (fun _ => Raises server_error).

(** The hosted model answers every call. *)
Definition answering : environment :=
  services (fun n => match n with
                     | 0 => Returns "first"
                     | 1 => Returns "second"
                     | _ => Returns "both"
                     end).

(** *** Questions and uploads *)

Section Queries.
Variable env : environment.

Definition question_template : string := "
    Based on the following document chunk, provide a detailed answer to the question. 
    If the information is not available in the chunk, say so.

    Document chunk:
    {chunk}

    Question: {question}

    Answer:
    ".

Definition combined_answer_prompt : string := "
    Combine the following answers into a coherent response:

    {answers}

    Combined answer:
    ".

(** The [for chunk in doc_chunks] loop of [query_documents]; [answers] is
    the list appended to. *)
Fixpoint answer_chunks (question : string) (doc_chunks : list string)
  (answers : list (option string)) : M (list (option string)) :=
  match doc_chunks with
  | [] => ret answers
  | chunk :: rest =>
      answer <- process_with_retry env (invoke env question_template)
                  [("chunk", chunk); ("question", question)] 3 ;;
      answer_chunks question rest (answers ++ [answer])%list
  end.

(** [query_documents], DocumentR.py lines 173-203. *)
Definition query_documents (question : string) (doc_chunks : list string)
  : M (option string) :=
  answers <- answer_chunks question doc_chunks [] ;;
  joined <- str_join " " answers ;;
  process_with_retry env (invoke env combined_answer_prompt)
    [("answers", joined)] 3.

(** The [for file in uploaded_files] loop of [main], DocumentR.py lines
    291-317; [combined] is [st.session_state.combined_document_text], which
    each round extends by the chunks of the text it stored. *)
Fixpoint upload_loop (user_id : string) (uploaded_files : list uploaded_file)
  (combined : list string) : M (list string) :=
  match uploaded_files with
  | [] => ret combined
  | file :: rest =>
      info <- process_uploaded_file env user_id file ;;
      upload_loop user_id rest
        (combined ++ chunk_text env (text_content info))%list
  end.

(** The upload branch of [main], DocumentR.py lines 287-317: with no file
    chosen the texts of the session stay as they are, otherwise they are
    emptied and built again. *)
Definition upload_files (user_id : string)
  (uploaded_files : list uploaded_file) (combined_document_text : list string)
  : M (list string) :=
  match uploaded_files with
  | [] => ret combined_document_text
  | _ :: _ => upload_loop user_id uploaded_files []
  end.

(** The text the stored document of a file holds. *)
Definition extracted_text (file : uploaded_file) : string :=
  match extract_text_from_file env file with
  | Returns text => text
  | Raises _ => ""
  end.

(** The stored document of a file whose upload returned no URL. *)
Definition stored_document (file : uploaded_file) : document_info :=
  {| filename := file_name file;
     file_url := None;
     doc_type := file_type file;
     text_content := extracted_text file;
     chunk_count := List.length (chunk_text env (extracted_text file)) |}.

(** A file that the extraction and the thumbnail both accept. *)
Definition readable (file : uploaded_file) : Prop :=
  (exists text, extract_text_from_file env file = Returns text)
  /\ (exists thumbnail, generate_thumbnail env file = Returns thumbnail).

(** Firestore accepts the documents of the files, the first of them being
    its [first]-th request. *)
Definition accepted (first : nat) (files : list uploaded_file) : Prop :=
  forall k file,
    nth_error files k = Some file ->
    firestore_add env (first + k) (stored_document file) = Returns tt.

(** How a round of the loop fails on a file with [e]: its text extraction
    raises, or its thumbnail does, or Firestore refuses its document, which
    is its [n]-th request. *)
Definition fails (n : nat) (file : uploaded_file) (e : exn) : Prop :=
  extract_text_from_file env file = Raises e
  \/ (exists text,
         extract_text_from_file env file = Returns text
         /\ generate_thumbnail env file = Raises e)
  \/ (readable file
      /\ firestore_add env n (stored_document file) = Raises e).

(** The chunks of the texts of the files, in the order of the files. *)
Definition chunks_of (files : list uploaded_file) : list string :=
  flat_map (fun file => chunk_text env (extracted_text file)) files.

(** What the policy returns once its last attempt has failed, from what
    the local model answered. *)
Definition fallback_outcome (answered : outcome (list generation))
  : outcome (option string) :=
  match answered with
  | Returns (g :: _) => Returns (Some (generated_text g))
  | Returns [] => Raises {| exn_class := "IndexError";
                            exn_text := "list index out of range" |}
  | Raises e => Raises e
  end.

End Queries.

(** *** Measures of a run *)

(** What a run of the loop adds to the trace. *)
Definition modest (attempts : nat) (evs : trace) : Prop :=
  (count is_invoke evs <= attempts)%nat
  /\ (count is_fallback evs <= 1)%nat
  /\ count is_random evs = List.length (sleeps evs)
  /\ (List.length (sleeps evs) <= attempts - 1)%nat
  /\ count is_storage evs = O
  /\ documents evs = [].

(** What one wrapped call adds to the counts when the hosted model is
    rate limited throughout. *)
Definition degraded_by (calls : nat) (tr tr' : trace) : Prop :=
  count is_invoke tr' = (count is_invoke tr + 3 * calls)%nat
  /\ count is_fallback tr' = (count is_fallback tr + calls)%nat
  /\ List.length (sleeps tr') = (List.length (sleeps tr) + 2 * calls)%nat.

(** The hosted model is down and the local model generates nothing. *)
Definition nothing_generated : environment :=
  {| hosted_model := hosted_model server_down;
     fallback_model := fun _ _ _ => Returns [];
     random_random := random_random server_down;
     storage_service := storage_service server_down;
     firestore_add := firestore_add server_down;
     strftime_now := strftime_now server_down;
     extract_text_from_file := extract_text_from_file server_down;
     chunk_text := chunk_text server_down;
     generate_thumbnail := generate_thumbnail server_down |}.

(** The quota is exhausted for good. *)
Definition out_of_quota : environment :=
  services (fun _ => Raises quota_error).

(** The first two chunks are answered, the third meets a server error. *)
Definition failing_on_third : environment :=
  services (fun n => match n with
                     | 0 => Returns "first"
                     | 1 => Returns "second"
                     | _ => Raises server_error
                     end).

(** Firestore accepts the first document and refuses the second. *)
Definition unavailable : exn :=
  {| exn_class := "ServiceUnavailable";
     exn_text := "503 The service is currently unavailable." |}.

Definition firestore_refusing : environment :=
  {| hosted_model := hosted_model answering;
     fallback_model := fallback_model answering;
     random_random := random_random answering;
     storage_service := storage_service answering;
     firestore_add :=
       fun n _ =>
         match n with
         | 1%nat => Raises unavailable
         | _ => Returns tt
         end;
     strftime_now := strftime_now answering;
     extract_text_from_file := extract_text_from_file answering;
     chunk_text := chunk_text answering;
     generate_thumbnail := generate_thumbnail answering |}.

End DocumentR.

(** ** [Btax.py]: the upload of a supporting document *)

Module BtaxStorage.
Import DocumentR.
#[local] Open Scope py_scope.
#[local] Open Scope string_scope.

Section Upload.
Variable env : environment.

(** [os.path.splitext]. *)
Variable splitext : string -> string * string.

(** The [str(uuid.uuid4())] drawn by the call. *)
Variable fresh_uuid : string.

(** [datetime.now().strftime(format)]; [Btax.py] imports [datetime]. *)
Definition now_strftime (format : string) : M string :=
  emit (Now format) ;;
  ret (strftime_now env format).

(** The name under which the document is stored. *)
Definition blob_name_of (business_id stamp : string) (file : uploaded_file)
  : string :=
  "business_documents/" ++ business_id ++ "/" ++ stamp ++ "_" ++ fresh_uuid
    ++ snd (splitext (file_name file)).

(** [upload_document_to_firebase], Btax.py lines 52-71; the file is [None]
    when the form was sent without one. *)
Definition upload_document_to_firebase (business_id : string)
  (file : option uploaded_file) : M (option string) :=
  match file with
  | Some file =>
      try_except
        (storage env Bucket ;;
         let file_extension := snd (splitext (file_name file)) in
         stamp <- now_strftime "%Y%m%d_%H%M%S" ;;
         let blob_name :=
           "business_documents/" ++ business_id ++ "/" ++ stamp ++ "_"
             ++ fresh_uuid ++ file_extension in
         storage env
           (UploadFromString blob_name (file_value file) (file_type file)) ;;
         storage env (MakePublic blob_name) ;;
         public_url <- storage env (PublicUrl blob_name) ;;
         ret (Some public_url))
        (fun e =>
           st_error ("Error uploading document: " ++ exn_text e) ;;
           ret None)
  | None => ret None
  end.

End Upload.

(** The extension is what follows the last dot of a name with one dot. *)
Definition sample_splitext (name : string) : string * string :=
  if String.eqb name "invoice.pdf" then ("invoice", ".pdf") else (name, "").

(** The storage accepts the first request and refuses the second. *)
Definition storage_refusing : environment :=
  {| hosted_model := hosted_model answering;
     fallback_model := fallback_model answering;
     random_random := random_random answering;
     storage_service :=
       fun n _ =>
         match n with
         | O => Returns "bucket"
         | _ => Raises {| exn_class := "Forbidden";
                          exn_text := "403 permission denied" |}
         end;
     firestore_add := firestore_add answering;
     strftime_now := strftime_now answering;
     extract_text_from_file := extract_text_from_file answering;
     chunk_text := chunk_text answering;
     generate_thumbnail := generate_thumbnail answering |}.

End BtaxStorage.

(** ** Order facts on binary64 values.

    The primitive comparisons are specified by [SFcompare] on the decoded
    value ([ltb_spec], [leb_spec], [eqb_spec]); the facts below are read off
    that specification by cases on the three shapes of a float. *)

Module FloatOrder.

Lemma SFcompare_refl (s : spec_float) :
  s <> S754_nan -> SFcompare s s = Some Eq.
Proof.
  destruct s as [sg | sg | | sg m e]; intros Hn; try congruence;
    destruct sg; simpl; try reflexivity;
    rewrite Z.compare_refl; change (Pos.compare_cont Eq m m) with (Pos.compare m m);
    rewrite Pos.compare_refl; reflexivity.
Qed.

Lemma SFcompare_nan_l (s : spec_float) : SFcompare S754_nan s = None.
Proof. reflexivity. Qed.

Lemma SFcompare_nan_r (s : spec_float) : SFcompare s S754_nan = None.
Proof. destruct s as [sg | sg | | sg m e]; reflexivity. Qed.

(** Swapping the operands of a comparison flips its result. *)
Lemma SFcompare_swap (s t : spec_float) :
  SFcompare t s = option_map CompOpp (SFcompare s t).
Proof.
  destruct s as [sg | sg | | sg m e], t as [tg | tg | | tg n f];
    try destruct sg; try destruct tg; simpl; try reflexivity;
    rewrite (Z.compare_antisym e f);
    change (Pos.compare_cont Eq n m) with (Pos.compare n m);
    change (Pos.compare_cont Eq m n) with (Pos.compare m n);
    rewrite (Pos.compare_antisym m n);
    destruct (e ?= f)%Z; simpl; try reflexivity;
    destruct (m ?= n)%positive; reflexivity.
Qed.

(** The order read by [SFcompare] is transitive: on finite values of one
    sign it is the lexicographic order on (exponent, mantissa). *)
Lemma SFleb_trans (s t u : spec_float) :
  SFleb s t = true -> SFleb t u = true -> SFleb s u = true.
Proof.
  unfold SFleb.
  destruct s as [sg | sg | | sg m e], t as [tg | tg | | tg n f],
           u as [ug | ug | | ug p g];
    try destruct sg; try destruct tg; try destruct ug; simpl;
    try reflexivity; try discriminate;
    change (Pos.compare_cont Eq m n) with (Pos.compare m n);
    change (Pos.compare_cont Eq n p) with (Pos.compare n p);
    change (Pos.compare_cont Eq m p) with (Pos.compare m p);
    destruct (Z.compare_spec e f), (Z.compare_spec f g), (Z.compare_spec e g);
    simpl; try reflexivity; try discriminate; try lia; subst;
    destruct (Pos.compare_spec m n), (Pos.compare_spec n p),
             (Pos.compare_spec m p);
    simpl; try reflexivity; try discriminate; lia.
Qed.

Lemma ltb_irrefl (x : float) : (x <? x) = false.
Proof.
  rewrite ltb_spec. unfold SFltb.
  destruct (Prim2SF x) as [sg | sg | | sg m e] eqn:E; try reflexivity;
    rewrite SFcompare_refl; congruence.
Qed.

Lemma ltb_leb (x y : float) : (x <? y) = true -> (x <=? y) = true.
Proof.
  rewrite ltb_spec, leb_spec. unfold SFltb, SFleb.
  destruct (SFcompare (Prim2SF x) (Prim2SF y)) as [[ | | ] | ]; congruence.
Qed.

Lemma leb_trans (x y z : float) :
  (x <=? y) = true -> (y <=? z) = true -> (x <=? z) = true.
Proof. rewrite !leb_spec. apply SFleb_trans. Qed.

(** A float that takes part in a true comparison is a number. *)
Lemma leb_number_r (x y : float) : (x <=? y) = true -> (y =? y) = true.
Proof.
  rewrite leb_spec, eqb_spec. unfold SFleb, SFeqb. intros H.
  rewrite SFcompare_refl; [reflexivity | ].
  intros E. rewrite E, SFcompare_nan_r in H. discriminate.
Qed.

Lemma leb_refl (x : float) : (x =? x) = true -> (x <=? x) = true.
Proof.
  rewrite leb_spec, eqb_spec. unfold SFleb, SFeqb.
  destruct (SFcompare (Prim2SF x) (Prim2SF x)) as [[ | | ] | ]; congruence.
Qed.

(** What is above zero is not equal to zero. *)
Lemma positive_not_zero (x : float) : (0 <? x) = true -> (x =? 0) = false.
Proof.
  rewrite ltb_spec, eqb_spec. change (Prim2SF 0) with (S754_zero false).
  unfold SFltb, SFeqb.
  destruct (Prim2SF x) as [sg | sg | | sg m e]; cbn [SFcompare];
    try destruct sg; intros H; try reflexivity; discriminate H.
Qed.

(** On numbers the order is total: what is not below is above or equal. *)
Lemma not_ltb_leb (x y : float) :
  (x =? x) = true -> (y =? y) = true -> (x <? y) = false -> (y <=? x) = true.
Proof.
  rewrite !eqb_spec, ltb_spec, leb_spec. unfold SFeqb, SFltb, SFleb.
  intros Hx Hy. rewrite (SFcompare_swap (Prim2SF x) (Prim2SF y)).
  destruct (Prim2SF x) as [sg | sg | | sg m e] eqn:Ex;
    [ | | rewrite SFcompare_nan_l in Hx; discriminate | ];
    (destruct (Prim2SF y) as [tg | tg | | tg n f] eqn:Ey;
     [ | | rewrite SFcompare_nan_l in Hy; discriminate | ]);
    match goal with
    | |- context [SFcompare ?a ?b] =>
        destruct (SFcompare a b) as [[ | | ] | ] eqn:Ec
    end; simpl; try congruence;
    destruct sg; try destruct tg; simpl in Ec; discriminate.
Qed.

End FloatOrder.

(** ** Signs under rounding.

    Rounding a non-negative mantissa gives a zero, a finite value or an
    infinity that carries the sign it was given, never a NaN. *)

Module FloatSign.
Import FloatOrder.

(** The results that carry the sign [sx]. *)
Definition signed (sx : bool) (r : spec_float) : Prop :=
  match r with
  | S754_zero s | S754_infinity s | S754_finite s _ _ => s = sx
  | S754_nan => False
  end.

Lemma shr_1_nonneg (mrs : shr_record) :
  (0 <= shr_m mrs)%Z -> (0 <= shr_m (shr_1 mrs))%Z.
Proof.
  destruct mrs as [m r s]. cbn [shr_m]. intros Hm.
  destruct m as [ | [p | p | ] | p]; cbn; lia.
Qed.

Lemma iter_shr_1_nonneg (p : positive) :
  forall mrs, (0 <= shr_m mrs)%Z -> (0 <= shr_m (iter_pos shr_1 p mrs))%Z.
Proof.
  induction p as [p IH | p IH | ]; intros mrs Hm; cbn [iter_pos].
  - apply IH, IH, shr_1_nonneg, Hm.
  - apply IH, IH, Hm.
  - apply shr_1_nonneg, Hm.
Qed.

Lemma shr_fexp_nonneg (m e : Z) (l : location) :
  (0 <= m)%Z -> (0 <= shr_m (fst (shr_fexp prec emax m e l)))%Z.
Proof.
  intros Hm. unfold shr_fexp, shr.
  assert (H0 : (0 <= shr_m (shr_record_of_loc m l))%Z).
  { destruct l as [ | [ | | ]]; exact Hm. }
  destruct (fexp prec emax (Zdigits2 m + e) - e)%Z; cbn [fst];
    [exact H0 | | exact H0].
  apply iter_shr_1_nonneg. exact H0.
Qed.

Lemma round_nearest_even_nonneg (m : Z) (l : location) :
  (0 <= m)%Z -> (0 <= round_nearest_even m l)%Z.
Proof.
  intros Hm. unfold round_nearest_even.
  destruct l as [ | [ | | ]]; try destruct (Z.even m); lia.
Qed.

Lemma binary_round_aux_signed (sx : bool) (mx ex : Z) (lx : location) :
  (0 <= mx)%Z -> signed sx (binary_round_aux prec emax sx mx ex lx).
Proof.
  intros Hm. unfold binary_round_aux.
  pose proof (shr_fexp_nonneg mx ex lx Hm) as H1.
  destruct (shr_fexp prec emax mx ex lx) as [mrs' e'].
  cbn [fst] in H1.
  pose proof (shr_fexp_nonneg _ e' loc_Exact
                (round_nearest_even_nonneg _ (loc_of_shr_record mrs') H1))
    as H2.
  destruct (shr_fexp prec emax
              (round_nearest_even (shr_m mrs') (loc_of_shr_record mrs'))
              e' loc_Exact) as [mrs'' e''].
  cbn [fst] in H2.
  destruct (shr_m mrs'') as [ | m | m]; [reflexivity | | lia].
  destruct (e'' <=? emax - prec)%Z; reflexivity.
Qed.

(** A float that is at least zero is a zero, plus infinity or a positive
    finite value. *)
Lemma nonneg_shape (x : float) :
  (0 <=? x) = true ->
  match Prim2SF x with
  | S754_zero _ => True
  | S754_infinity s | S754_finite s _ _ => s = false
  | S754_nan => False
  end.
Proof.
  rewrite leb_spec. change (Prim2SF 0) with (S754_zero false).
  unfold SFleb.
  destruct (Prim2SF x) as [s | s | | s m e]; cbn; try destruct s;
    try discriminate; trivial.
Qed.

Lemma signed_nonneg (x : float) :
  signed false (Prim2SF x) -> (0 <=? x) = true.
Proof.
  rewrite leb_spec. change (Prim2SF 0) with (S754_zero false).
  unfold SFleb.
  destruct (Prim2SF x) as [s | s | | s m e]; cbn;
    intros H; try subst s; try reflexivity; contradiction.
Qed.

(** The product of a float that is at least zero by a positive finite
    constant is at least zero. *)
Lemma mul_nonneg (x c : float) (m : positive) (e : Z) :
  Prim2SF c = S754_finite false m e ->
  (0 <=? x) = true -> (0 <=? x * c) = true.
Proof.
  intros Hc Hx. apply nonneg_shape in Hx.
  rewrite leb_spec, mul_spec, Hc.
  change (Prim2SF 0) with (S754_zero false).
  destruct (Prim2SF x) as [s | s | | s mx ex]; try contradiction.
  - destruct s; reflexivity.
  - subst s. reflexivity.
  - subst s. unfold SF64mul, SFmul. cbn [xorb].
    pose proof (binary_round_aux_signed false (Zpos (mx * m)) (ex + e)
                  loc_Exact (Pos2Z.is_nonneg _)) as Hs.
    destruct (binary_round_aux prec emax false (Zpos (mx * m)) (ex + e)
                loc_Exact) as [s | s | | s m' e'];
      cbn in Hs; try subst s; try reflexivity; contradiction.
Qed.

(** *** The exponent after rounding

    [digits + exponent] bounds the magnitude of a value; when it is at most
    1023 the rounded value does not overflow. *)

Lemma fexp_le (k : Z) : (k <= 1024)%Z -> (fexp prec emax k <= emax - prec)%Z.
Proof. unfold fexp, emin, emax, prec. lia. Qed.

Lemma digits2_succ (p : positive) :
  (Zpos (digits2_pos (Pos.succ p)) <= Zpos (digits2_pos p) + 1)%Z.
Proof.
  induction p as [p IH | p IH | ]; cbn [Pos.succ digits2_pos]; lia.
Qed.

Lemma digits2_iter_xO (m d : positive) :
  Zpos (digits2_pos (Pos.iter xO m d)) = (Zpos (digits2_pos m) + Zpos d)%Z.
Proof.
  induction d as [ | d IH] using Pos.peano_ind.
  - cbn. lia.
  - rewrite Pos.iter_succ. cbn [digits2_pos]. lia.
Qed.

(** Aligning keeps [digits + exponent] and never raises the exponent. *)
Lemma shl_align_digits (m : positive) (e e' : Z) :
  (Zpos (digits2_pos (fst (shl_align m e e'))) + snd (shl_align m e e')
   = Zpos (digits2_pos m) + e)%Z
  /\ (snd (shl_align m e e') <= e')%Z.
Proof.
  unfold shl_align.
  destruct (e' - e)%Z as [ | d | d] eqn:E; cbn [fst snd].
  - lia.
  - lia.
  - rewrite digits2_iter_xO. lia.
Qed.

Lemma shr_1_digits (mrs : shr_record) :
  (0 <= shr_m mrs)%Z ->
  (Zdigits2 (shr_m (shr_1 mrs)) <= Z.max 0 (Zdigits2 (shr_m mrs) - 1))%Z.
Proof.
  destruct mrs as [m r s]. cbn [shr_m]. intros Hm.
  destruct m as [ | [p | p | ] | p]; cbn [shr_1 shr_m Zdigits2 digits2_pos];
    lia.
Qed.

Lemma iter_shr_1_digits (p : positive) :
  forall mrs,
    (0 <= shr_m mrs)%Z ->
    (Zdigits2 (shr_m (iter_pos shr_1 p mrs))
     <= Z.max 0 (Zdigits2 (shr_m mrs) - Zpos p))%Z.
Proof.
  induction p as [p IH | p IH | ]; intros mrs Hm; cbn [iter_pos].
  - pose proof (shr_1_digits mrs Hm) as H1.
    pose proof (shr_1_nonneg mrs Hm) as N1.
    pose proof (IH _ N1) as H2.
    pose proof (iter_shr_1_nonneg p _ N1) as N2.
    pose proof (IH _ N2) as H3. lia.
  - pose proof (IH _ Hm) as H2.
    pose proof (iter_shr_1_nonneg p _ Hm) as N2.
    pose proof (IH _ N2) as H3. lia.
  - pose proof (shr_1_digits mrs Hm). lia.
Qed.

Lemma Zdigits2_nonneg (m : Z) : (0 <= Zdigits2 m)%Z.
Proof. destruct m; cbn; lia. Qed.

(** After the shift to the exponent of the format: the new exponent, and
    what is left of [digits + exponent]. *)
Lemma shr_fexp_digits (m e : Z) (l : location) :
  (0 <= m)%Z ->
  let '(mrs, e') := shr_fexp prec emax m e l in
  e' = Z.max e (fexp prec emax (Zdigits2 m + e))
  /\ (Zdigits2 (shr_m mrs) + e' <= Z.max e' (Zdigits2 m + e))%Z.
Proof.
  intros Hm. unfold shr_fexp, shr.
  assert (H0 : shr_m (shr_record_of_loc m l) = m).
  { destruct l as [ | [ | | ]]; reflexivity. }
  destruct (fexp prec emax (Zdigits2 m + e) - e)%Z as [ | p | p] eqn:E.
  - rewrite H0. split; lia.
  - pose proof (iter_shr_1_digits p (shr_record_of_loc m l)) as H.
    rewrite H0 in H. specialize (H Hm). split; lia.
  - rewrite H0. split; lia.
Qed.

Lemma round_nearest_even_digits (m : Z) (l : location) :
  (0 <= m)%Z ->
  (Zdigits2 (round_nearest_even m l) <= Zdigits2 m + 1)%Z.
Proof.
  intros Hm.
  assert (Hsucc : (Zdigits2 (m + 1) <= Zdigits2 m + 1)%Z).
  { destruct m as [ | p | p]; [cbn; lia | | lia].
    replace (Zpos p + 1)%Z with (Zpos (Pos.succ p)) by lia.
    apply digits2_succ. }
  unfold round_nearest_even.
  destruct l as [ | [ | | ]]; try destruct (Z.even m); lia.
Qed.

(** No overflow when [digits + exponent] is at most 1023. *)
Lemma binary_round_aux_finite (sx : bool) (mx ex : Z) (lx : location) :
  (0 <= mx)%Z ->
  (Zdigits2 mx + ex <= 1023)%Z ->
  (ex <= fexp prec emax (Zdigits2 mx + ex))%Z ->
  match binary_round_aux prec emax sx mx ex lx with
  | S754_zero s | S754_finite s _ _ => s = sx
  | _ => False
  end.
Proof.
  intros Hm Hd He. unfold binary_round_aux.
  pose proof (shr_fexp_nonneg mx ex lx Hm) as N1.
  pose proof (shr_fexp_digits mx ex lx Hm) as D1.
  destruct (shr_fexp prec emax mx ex lx) as [mrs' e'].
  cbn [fst] in N1. destruct D1 as [E1 D1].
  set (m1 := round_nearest_even (shr_m mrs') (loc_of_shr_record mrs')).
  pose proof (round_nearest_even_nonneg _ (loc_of_shr_record mrs') N1) as N2.
  pose proof (round_nearest_even_digits _ (loc_of_shr_record mrs') N1) as D2.
  fold m1 in N2, D2.
  pose proof (shr_fexp_nonneg m1 e' loc_Exact N2) as N3.
  pose proof (shr_fexp_digits m1 e' loc_Exact N2) as D3.
  destruct (shr_fexp prec emax m1 e' loc_Exact) as [mrs'' e''].
  cbn [fst] in N3. destruct D3 as [E3 _].
  destruct (shr_m mrs'') as [ | m | m]; [reflexivity | | lia].
  assert (Hbound : (e'' <= emax - prec)%Z).
  { pose proof (fexp_le (Zdigits2 mx + ex)) as F1.
    pose proof (fexp_le (Zdigits2 m1 + e')) as F2.
    unfold emax, prec in *. lia. }
  apply Z.leb_le in Hbound. rewrite Hbound. reflexivity.
Qed.

Lemma binary_round_finite (sx : bool) (m : positive) (e : Z) :
  (Zpos (digits2_pos m) + e <= 1023)%Z ->
  match binary_round prec emax sx m e with
  | S754_zero s | S754_finite s _ _ => s = sx
  | _ => False
  end.
Proof.
  intros Hd. unfold binary_round.
  pose proof (shl_align_digits m e
                (fexp prec emax (Zpos (digits2_pos m) + e))) as Ha.
  destruct (shl_align m e (fexp prec emax (Zpos (digits2_pos m) + e)))
    as [mz ez].
  cbn [fst snd] in Ha. destruct Ha as [Hq Hle].
  apply binary_round_aux_finite; cbn [Zdigits2]; rewrite ?Hq; lia.
Qed.

(** *** The sum of two positive finite values *)

Lemma digits2_bounds (p : positive) :
  (2 ^ (Zpos (digits2_pos p) - 1) <= Zpos p < 2 ^ Zpos (digits2_pos p))%Z.
Proof.
  induction p as [p IH | p IH | ]; cbn [digits2_pos].
  - rewrite Pos2Z.inj_succ.
    replace (Z.succ (Zpos (digits2_pos p)) - 1)%Z
      with (Z.succ (Zpos (digits2_pos p) - 1))%Z by lia.
    rewrite !Z.pow_succ_r by lia. lia.
  - rewrite Pos2Z.inj_succ.
    replace (Z.succ (Zpos (digits2_pos p)) - 1)%Z
      with (Z.succ (Zpos (digits2_pos p) - 1))%Z by lia.
    rewrite !Z.pow_succ_r by lia. lia.
  - cbn. lia.
Qed.

Lemma digits2_le (p : positive) (k : Z) :
  (Zpos p < 2 ^ k)%Z -> (Zpos (digits2_pos p) <= k)%Z.
Proof.
  intros Hlt. destruct (Z.le_gt_cases (Zpos (digits2_pos p)) k) as [H | H];
    [exact H | exfalso].
  destruct (Z.lt_ge_cases k 0) as [Hneg | Hpos].
  - rewrite Z.pow_neg_r in Hlt by exact Hneg. lia.
  - pose proof (digits2_bounds p) as [Hlow _].
    pose proof (Z.pow_le_mono_r 2 k (Zpos (digits2_pos p) - 1)) as Hmono.
    lia.
Qed.

Lemma digits2_add (a b : positive) :
  (Zpos (digits2_pos (a + b))
   <= Z.max (Zpos (digits2_pos a)) (Zpos (digits2_pos b)) + 1)%Z.
Proof.
  apply digits2_le.
  pose proof (digits2_bounds a) as [_ Ha].
  pose proof (digits2_bounds b) as [_ Hb].
  set (k := Z.max (Zpos (digits2_pos a)) (Zpos (digits2_pos b))).
  pose proof (Z.pow_le_mono_r 2 (Zpos (digits2_pos a)) k) as Ma.
  pose proof (Z.pow_le_mono_r 2 (Zpos (digits2_pos b)) k) as Mb.
  rewrite Z.pow_add_r by lia. change (2 ^ 1)%Z with 2%Z.
  rewrite Pos2Z.inj_add. lia.
Qed.

Lemma shl_align_to_lower (m : positive) (e ez : Z) :
  (ez <= e)%Z -> snd (shl_align m e ez) = ez.
Proof.
  intros Hle. unfold shl_align.
  destruct (ez - e)%Z as [ | d | d] eqn:E; cbn [snd]; lia.
Qed.

(** The sum of two positive finite values of bounded magnitude is a
    positive finite value (or a zero). *)
Lemma SFadd_finite (mx my : positive) (ex ey k : Z) :
  (Zpos (digits2_pos mx) + ex <= k)%Z ->
  (Zpos (digits2_pos my) + ey <= k)%Z ->
  (k + 1 <= 1023)%Z ->
  match SF64add (S754_finite false mx ex) (S754_finite false my ey) with
  | S754_zero s | S754_finite s _ _ => s = false
  | _ => False
  end.
Proof.
  intros Hx Hy Hk. unfold SF64add, SFadd. cbn [cond_Zopp].
  set (ez := Z.min ex ey).
  pose proof (shl_align_digits mx ex ez) as [Dx _].
  pose proof (shl_align_digits my ey ez) as [Dy _].
  rewrite (shl_align_to_lower mx ex ez) in Dx by (unfold ez; lia).
  rewrite (shl_align_to_lower my ey ez) in Dy by (unfold ez; lia).
  set (a := fst (shl_align mx ex ez)) in *.
  set (b := fst (shl_align my ey ez)) in *.
  change (Zpos a + Zpos b)%Z with (Zpos (a + b)). cbn [binary_normalize].
  apply binary_round_finite.
  pose proof (digits2_add a b). lia.
Qed.

(** A valid finite value has at most 53 digits. *)
Lemma valid_digits (s : bool) (m : positive) (e : Z) :
  valid_binary (S754_finite s m e) = true ->
  (Zpos (digits2_pos m) <= 53)%Z.
Proof.
  cbn [SpecFloat.valid_binary]. unfold bounded, canonical_mantissa.
  intros H. apply Bool.andb_true_iff in H. destruct H as [H _].
  apply Z.eqb_eq in H. unfold fexp, emin, emax, prec in H. lia.
Qed.

(** *** Sums and differences of values that are at least zero *)

Lemma binary_round_signed (sx : bool) (m : positive) (e : Z) :
  signed sx (binary_round prec emax sx m e).
Proof.
  unfold binary_round.
  destruct (shl_align m e (fexp prec emax (Zpos (digits2_pos m) + e)))
    as [mz ez].
  apply binary_round_aux_signed. lia.
Qed.

Lemma binary_normalize_nonneg (z e : Z) :
  (0 <= z)%Z -> signed false (binary_normalize prec emax z e false).
Proof.
  intros Hz. destruct z as [ | p | p]; cbn [binary_normalize];
    [reflexivity | apply binary_round_signed | lia].
Qed.

Lemma shape_nonneg (x : float) :
  match Prim2SF x with
  | S754_zero _ => True
  | S754_infinity s | S754_finite s _ _ => s = false
  | S754_nan => False
  end ->
  (0 <=? x) = true.
Proof.
  rewrite leb_spec. change (Prim2SF 0) with (S754_zero false).
  unfold SFleb.
  destruct (Prim2SF x) as [s | s | | s m e]; cbn;
    intros H; try subst s; try reflexivity; contradiction.
Qed.

(** The sum of two floats that are at least zero is at least zero. *)
Lemma add_nonneg (x y : float) :
  (0 <=? x) = true -> (0 <=? y) = true -> (0 <=? x + y) = true.
Proof.
  intros Hx Hy. apply nonneg_shape in Hx. apply nonneg_shape in Hy.
  apply shape_nonneg. rewrite add_spec. unfold SF64add, SFadd.
  destruct (Prim2SF x) as [s | s | | s m e]; try contradiction;
    destruct (Prim2SF y) as [t | t | | t n f]; try contradiction;
    try subst s; try subst t; cbn [cond_Zopp]; try reflexivity.
  - destruct s, t; exact I.
  - pose proof (binary_normalize_nonneg
                  (Zpos (fst (shl_align m e (Z.min e f)))
                   + Zpos (fst (shl_align n f (Z.min e f))))
                  (Z.min e f) ltac:(lia)) as Hs.
    destruct (binary_normalize prec emax
                (Zpos (fst (shl_align m e (Z.min e f)))
                 + Zpos (fst (shl_align n f (Z.min e f))))
                (Z.min e f) false) as [u | u | | u k g];
      cbn [signed] in Hs; try exact I; try exact Hs; contradiction.
Qed.

Lemma iter_xO_value (m d : positive) :
  Zpos (Pos.iter xO m d) = (Zpos m * 2 ^ Zpos d)%Z.
Proof.
  induction d as [ | d IH] using Pos.peano_ind.
  - cbn. lia.
  - rewrite Pos.iter_succ, Pos2Z.inj_succ, Z.pow_succ_r by lia.
    rewrite Pos2Z.inj_xO, IH. lia.
Qed.

(** A valid finite value above the least exponent has its 53 digits. *)
Lemma valid_normal (s : bool) (m : positive) (e : Z) :
  valid_binary (S754_finite s m e) = true ->
  (-1074 <= e)%Z /\ ((-1074 < e)%Z -> (2 ^ 52 <= Zpos m)%Z).
Proof.
  intros Hvalid. pose proof (digits2_bounds m) as [Hlow _].
  cbn [SpecFloat.valid_binary] in Hvalid.
  unfold bounded, canonical_mantissa in Hvalid.
  apply Bool.andb_true_iff in Hvalid. destruct Hvalid as [H _].
  apply Z.eqb_eq in H. unfold fexp, emin, emax, prec in H.
  split; [lia | ]. intros He.
  replace (Zpos (digits2_pos m)) with 53%Z in Hlow by lia.
  exact Hlow.
Qed.

(** Taking a positive finite constant off a float that is at least the
    constant leaves at least zero. *)
Lemma sub_nonneg (x c : float) (mc : positive) (ec : Z) :
  Prim2SF c = S754_finite false mc ec ->
  (c <=? x) = true -> (0 <=? x - c) = true.
Proof.
  intros Hc Hle.
  pose proof (Prim2SF_valid x) as Vx. pose proof (Prim2SF_valid c) as Vc.
  rewrite leb_spec in Hle. rewrite Hc in Hle, Vc.
  apply signed_nonneg. rewrite sub_spec, Hc. unfold SF64sub, SFsub.
  unfold SFleb in Hle.
  destruct (Prim2SF x) as [s | s | | s m e]; cbn [SFcompare] in Hle;
    try discriminate Hle.
  - destruct s; [discriminate Hle | reflexivity].
  - destruct s; [discriminate Hle | ]. cbn [cond_Zopp].
    apply binary_normalize_nonneg.
    pose proof (valid_digits _ _ _ Vc) as Dc.
    pose proof (digits2_bounds mc) as [_ Uc].
    pose proof (valid_normal _ _ _ Vc) as [Ec _].
    pose proof (valid_normal _ _ _ Vx) as [_ Nx].
    assert (Hmc : (Zpos mc < 2 ^ 53)%Z).
    { pose proof (Z.pow_le_mono_r 2 (Zpos (digits2_pos mc)) 53). lia. }
    unfold shl_align.
    destruct (Z.compare_spec ec e) as [Heq | Hlt | Hgt].
    + subst e. rewrite Z.min_id, Z.sub_diag. cbn [fst].
      change (Pos.compare_cont Eq mc m) with (Pos.compare mc m) in Hle.
      destruct (Pos.compare_spec mc m); try discriminate Hle; lia.
    + replace (Z.min e ec) with ec by lia.
      rewrite Z.sub_diag. cbn [fst].
      destruct (ec - e)%Z as [ | d | d] eqn:Ed; try lia.
      cbn [fst]. rewrite iter_xO_value.
      pose proof (Z.pow_le_mono_r 2 1 (Zpos d)) as Hpow.
      change (2 ^ 1)%Z with 2%Z in Hpow.
      specialize (Nx ltac:(lia)). change (2 ^ 52)%Z with 4503599627370496%Z in *.
      change (2 ^ 53)%Z with 9007199254740992%Z in *. nia.
    + discriminate Hle.
Qed.

End FloatSign.

(** ** The tax and depreciation calculators *)

Module BtaxSpec.
Import Btax FloatOrder.

(** *** [min] and [max] of two numbers *)

Section MinMax.
Variables a b : float.
Hypothesis a_number : (a =? a) = true.
Hypothesis b_number : (b =? b) = true.

Lemma py_min_lower : (py_min a b <=? a) = true /\ (py_min a b <=? b) = true.
Proof.
  unfold py_min. destruct (b <? a) eqn:E.
  - split; [apply ltb_leb; exact E | apply leb_refl; exact b_number].
  - split; [apply leb_refl; exact a_number | apply not_ltb_leb; assumption].
Qed.

Lemma py_max_upper : (a <=? py_max a b) = true /\ (b <=? py_max a b) = true.
Proof.
  unfold py_max. destruct (a <? b) eqn:E.
  - split; [apply ltb_leb; exact E | apply leb_refl; exact b_number].
  - split; [apply leb_refl; exact a_number | apply not_ltb_leb; assumption].
Qed.
End MinMax.

Lemma py_min_choice (a b : float) : py_min a b = a \/ py_min a b = b.
Proof. unfold py_min. destruct (b <? a); auto. Qed.

Lemma py_max_choice (a b : float) : py_max a b = a \/ py_max a b = b.
Proof. unfold py_max. destruct (a <? b); auto. Qed.

(** [max(0, x)] is never below zero, whatever [x] is (a NaN gives [0]). *)
Lemma py_max_zero_nonneg (x : float) : (0 <=? py_max 0 x) = true.
Proof.
  unfold py_max. destruct (0 <? x) eqn:E.
  - apply ltb_leb. exact E.
  - reflexivity.
Qed.

(** *** The bracket table *)

(** An income at or above a bound is not at or below a smaller one. *)
Lemma above_excludes_below (lo hi x : float) :
  (hi <=? lo) = false -> (hi <=? x) = true -> (x <=? lo) = false.
Proof.
  intros Hgap Hhi. destruct (x <=? lo) eqn:E; [ | reflexivity].
  rewrite (leb_trans hi x lo Hhi E) in Hgap. discriminate.
Qed.

Ltac skip_bracket Hmin :=
  match type of Hmin with
  | (?hi <=? ?x) = true =>
      match goal with
      | |- context [(x <=? ?lo)] =>
          rewrite (above_excludes_below lo hi x (eq_refl false) Hmin),
                  Bool.andb_false_r
      end
  end.

(** C1.  An income inside one of the four brackets (bounds included) gets
    [base_tax + (income - min_income + 1) * rate] and the rate of that
    bracket; an income of 91,251 owes 0.07 and an income of 600,000 owes
    72,037.50. *)
Theorem small_business_tax_in_bracket :
  (forall (taxable_income : float) (b : bracket),
      (0 <=? taxable_income) = true ->
      In b tax_brackets ->
      in_bracket b taxable_income = true ->
      let '(min_income, _, rate, base_tax) := b in
      calculate_small_business_tax taxable_income
      = (base_tax + (taxable_income - min_income + 1) * rate, rate))
  /\ calculate_small_business_tax 91251 = (0.07, 0.07)
  /\ calculate_small_business_tax 600000 = (72037.50, 0.28).
Proof.
  split; [ | split; reflexivity].
  intros x b _ Hb Hin.
  unfold calculate_small_business_tax, tax_brackets.
  destruct Hb as [<- | [<- | [<- | [<- | []]]]];
    cbn [in_bracket] in Hin; apply Bool.andb_true_iff in Hin;
    destruct Hin as [Hmin Hmax];
    cbn [bracket_loop in_bracket bracket_tax].
  - rewrite Hmin, Hmax. reflexivity.
  - skip_bracket Hmin. rewrite Hmin, Hmax. reflexivity.
  - do 2 skip_bracket Hmin. rewrite Hmin, Hmax. reflexivity.
  - do 3 skip_bracket Hmin. rewrite Hmin, Hmax. reflexivity.
Qed.

Lemma small_business_tax_in_bracket_witness :
  (0 <=? 365000) = true
  /\ in_bracket (91251, 365000, 0.07, 0) 365000 = true
  /\ calculate_small_business_tax 365000
     = (0 + (365000 - 91251 + 1) * 0.07, 0.07).
Proof.
  split; [reflexivity | split; [reflexivity | ]].
  exact (proj1 small_business_tax_in_bracket 365000
           (91251, 365000, 0.07, 0)
           (eq_refl true)
           (or_intror (or_introl eq_refl))
           (eq_refl true)).
Defined.

(** C5.  The bounds of the table are whole amounts, one apart, while an
    income carries cents: an income strictly between two rows, such as
    91,250.50 or 365,000.50, is non-negative, lies in no row, and receives
    the [(0, 0)] that follows the loop. *)
Theorem small_business_tax_between_rows :
  (0 <=? 91250.5) = true
  /\ forallb (fun b => negb (in_bracket b 91250.5)) tax_brackets = true
  /\ calculate_small_business_tax 91250.5 = (0, 0)
  /\ calculate_small_business_tax 365000.5 = (0, 0)
  /\ calculate_small_business_tax 550000.5 = (0, 0).
Proof. repeat split; reflexivity. Qed.

(** C6.  Under the standard rules the tax is the income times 0.27 and the
    rate is 0.27, whatever the income: no bracket is looked up, the rate is
    the same for any two incomes, and an income of 600,000, which the
    small-business table puts in its last bracket, owes 162,000. *)
Theorem business_tax_flat :
  (forall taxable_income : float,
      calculate_business_tax taxable_income = (taxable_income * 0.27, 0.27))
  /\ (forall x y : float,
         snd (calculate_business_tax x) = snd (calculate_business_tax y))
  /\ calculate_business_tax 600000 = (162000, 0.27).
Proof.
  split; [ | split].
  - intros taxable_income. reflexivity.
  - intros x y. reflexivity.
  - reflexivity.
Qed.

(** *** Depreciation *)

(** With a divisor above zero the division returns. *)
Lemma py_div_positive (a b : float) :
  (0 <? b) = true -> py_div a b = Ok (a / b).
Proof.
  intros Hb. unfold py_div. rewrite (positive_not_zero b Hb). reflexivity.
Qed.

(** C7.  With a positive expected life the calculation returns, and:
    the annual depreciation is the cost over the life; the accumulated
    depreciation is the cost when the cost is below
    [years_owned * annual_depreciation], and that product otherwise, so
    among numbers it is the lesser of the two; the current value is zero
    when the cost less the accumulated depreciation is below zero, and that
    difference otherwise, so among numbers it is the greater of the
    two.  A cost of 10,000 over 5 years, owned for 2 years (730 days),
    gives 2,000 a year, 4,000 accumulated and a value of 6,000; owned for 6
    years (2,190 days) it is capped at 10,000 accumulated and a value of
    zero. *)
Theorem depreciation_formula :
  (forall (days : Z) (row : asset_row),
      (0 <? expected_life row) = true ->
      exists d,
        calculate_depreciation days row = Ok d
        /\ annual_depreciation d = purchase_cost row / expected_life row
        /\ let grown := years_owned days * annual_depreciation d in
           let left_over := purchase_cost row - accumulated_depreciation d in
           accumulated_depreciation d
           = (if purchase_cost row <? grown then purchase_cost row else grown)
           /\ current_value d = (if left_over <? 0 then 0 else left_over)
           /\ (is_nan grown = false ->
               is_nan (purchase_cost row) = false ->
               (accumulated_depreciation d <=? grown) = true
               /\ (accumulated_depreciation d <=? purchase_cost row) = true)
           /\ (is_nan left_over = false ->
               (left_over <=? current_value d) = true
               /\ (0 <=? current_value d) = true))
  /\ years_owned 730 = 2
  /\ calculate_depreciation 730
       {| purchase_cost := 10000; expected_life := 5 |}
     = Ok {| annual_depreciation := 2000;
             accumulated_depreciation := 4000;
             current_value := 6000 |}
  /\ years_owned 2190 = 6
  /\ calculate_depreciation 2190
       {| purchase_cost := 10000; expected_life := 5 |}
     = Ok {| annual_depreciation := 2000;
             accumulated_depreciation := 10000;
             current_value := 0 |}.
Proof.
  split; [ | repeat split; reflexivity].
  intros days row Hlife. unfold calculate_depreciation.
  rewrite (py_div_positive _ _ Hlife). eexists. split; [reflexivity | ].
  cbn [annual_depreciation accumulated_depreciation current_value].
  split; [reflexivity | ]. cbv zeta.
  set (cost := purchase_cost row).
  set (grown := years_owned days * (cost / expected_life row)).
  assert (Hacc : py_min grown cost = (if cost <? grown then cost else grown)).
  { reflexivity. }
  rewrite Hacc.
  set (left_over := cost - (if cost <? grown then cost else grown)).
  assert (Hval : py_max left_over 0
                 = (if left_over <? 0 then 0 else left_over)).
  { reflexivity. }
  rewrite Hval. unfold is_nan.
  split; [reflexivity | split; [reflexivity | split]].
  - intros Hg Hc.
    apply Bool.negb_false_iff in Hg. apply Bool.negb_false_iff in Hc.
    destruct (cost <? grown) eqn:E.
    + split; [apply ltb_leb; exact E | apply leb_refl; exact Hc].
    + split; [apply leb_refl; exact Hg | apply not_ltb_leb; assumption].
  - intros Hl. apply Bool.negb_false_iff in Hl.
    destruct (left_over <? 0) eqn:E.
    + split; [apply ltb_leb; exact E | reflexivity].
    + split; [apply leb_refl; exact Hl
             | apply not_ltb_leb; [exact Hl | reflexivity | exact E]].
Qed.

Lemma depreciation_formula_witness :
  let row := {| purchase_cost := 10000; expected_life := 5 |} in
  (0 <? expected_life row) = true
  /\ exists d,
       calculate_depreciation 2190 row = Ok d
       /\ annual_depreciation d = 10000 / 5
       /\ accumulated_depreciation d = 10000
       /\ current_value d = 0.
Proof.
  cbv zeta. split; [reflexivity | ].
  destruct (proj1 depreciation_formula 2190%Z
              {| purchase_cost := 10000; expected_life := 5 |}
              (eq_refl true)) as [d [Hrun [Ha [Hb [Hc _]]]]].
  exists d. split; [exact Hrun | split; [exact Ha | ]].
  cbn [purchase_cost] in Hb, Hc.
  rewrite Hc, Hb, Ha. split; reflexivity.
Defined.

(** C4.  For a cost of at least zero, a positive expected life and a
    non-negative time of ownership, the calculation returns, the
    accumulated depreciation is never above the cost and the current value
    is never below zero.  Where the result is a number (a NaN arises only
    when an operand or an intermediate quotient is infinite) it is at most
    the cost, respectively at least zero. *)
Theorem depreciation_bounds (days : Z) (row : asset_row) :
  (0 <=? purchase_cost row) = true ->
  (0 <? expected_life row) = true ->
  (0 <=? years_owned days) = true ->
  exists d,
    calculate_depreciation days row = Ok d
    /\ (purchase_cost row <? accumulated_depreciation d) = false
    /\ (current_value d <? 0) = false
    /\ (is_nan (accumulated_depreciation d) = false ->
        (accumulated_depreciation d <=? purchase_cost row) = true)
    /\ (is_nan (current_value d) = false -> (0 <=? current_value d) = true).
Proof.
  intros Hcost Hlife _.
  pose proof (leb_number_r _ _ Hcost) as Hnum.
  unfold calculate_depreciation. rewrite (py_div_positive _ _ Hlife).
  eexists. split; [reflexivity | ].
  unfold is_nan;
    cbn [accumulated_depreciation current_value annual_depreciation].
  set (cost := purchase_cost row) in *.
  set (grown := years_owned days * (cost / expected_life row)).
  set (left_over := cost - py_min grown cost).
  repeat split.
  - unfold py_min. destruct (cost <? grown) eqn:E;
      [apply ltb_irrefl | exact E].
  - unfold py_max. destruct (left_over <? 0) eqn:E;
      [reflexivity | exact E].
  - unfold py_min. destruct (cost <? grown) eqn:E; intros Hn.
    + apply leb_refl. exact Hnum.
    + apply Bool.negb_false_iff in Hn. apply not_ltb_leb; assumption.
  - unfold py_max. destruct (left_over <? 0) eqn:E; intros Hn.
    + reflexivity.
    + apply Bool.negb_false_iff in Hn. apply not_ltb_leb; auto.
Qed.

Lemma depreciation_bounds_witness :
  let row := {| purchase_cost := 1250.75; expected_life := 3 |} in
  (0 <=? purchase_cost row) = true
  /\ (0 <? expected_life row) = true
  /\ (0 <=? years_owned 2000) = true
  /\ exists d,
       calculate_depreciation 2000 row = Ok d
       /\ (purchase_cost row <? accumulated_depreciation d) = false
       /\ (current_value d <? 0) = false.
Proof.
  cbv zeta. do 3 (split; [reflexivity | ]).
  destruct (depreciation_bounds 2000
              {| purchase_cost := 1250.75; expected_life := 3 |}
              (eq_refl true) (eq_refl true) (eq_refl true))
    as [d [Hrun [Ha [Hb _]]]].
  exists d. split; [exact Hrun | split; [exact Ha | exact Hb]].
Defined.

(** *** Taxable income *)



End BtaxSpec.

(** ** The pages of [Btax.py] around the calculators *)

Module BtaxPages.
Import Btax FloatOrder FloatSign.

(** *** The deductions by category *)

Lemma dict_get_set_same (key : string) (value : float) (d : amounts_by_category) :
  dict_get key (dict_set key value d) = Some value.
Proof.
  induction d as [ | [k v] rest IH]; cbn [dict_set dict_get].
  - rewrite String.eqb_refl. reflexivity.
  - destruct (String.eqb key k) eqn:E; cbn [dict_get]; rewrite E;
      [reflexivity | exact IH].
Qed.

Lemma dict_get_set_other (key other : string) (value : float)
  (d : amounts_by_category) :
  String.eqb other key = false ->
  dict_get other (dict_set key value d) = dict_get other d.
Proof.
  intros Hne. induction d as [ | [k v] rest IH]; cbn [dict_set dict_get].
  - rewrite Hne. reflexivity.
  - destruct (String.eqb key k) eqn:E; cbn [dict_get].
    + apply String.eqb_eq in E. subst k. rewrite Hne. reflexivity.
    + rewrite IH. reflexivity.
Qed.

Lemma dict_get_none_keys (key : string) (d : amounts_by_category) :
  dict_get key d = None <-> existsb (String.eqb key) (map fst d) = false.
Proof.
  induction d as [ | [k v] rest IH]; cbn [dict_get map fst existsb].
  - split; reflexivity.
  - destruct (String.eqb key k); cbn [orb]; [split; discriminate | exact IH].
Qed.

Lemma dict_set_keys (key : string) (value : float) (d : amounts_by_category) :
  map fst (dict_set key value d)
  = if existsb (String.eqb key) (map fst d) then map fst d
    else map fst d ++ [key].
Proof.
  induction d as [ | [k v] rest IH]; cbn [dict_set map fst existsb app].
  - reflexivity.
  - destruct (String.eqb key k) eqn:E; cbn [map fst orb].
    + reflexivity.
    + rewrite IH. destruct (existsb (String.eqb key) (map fst rest));
        reflexivity.
Qed.

Lemma add_deduction_some (d : amounts_by_category) (e : expense) :
  exists d',
    add_deduction d e = Some d'
    /\ (forall c,
           dict_get c d'
           = if String.eqb c (main_category e)
             then Some (get_or_zero (dict_get c d) + amount e)
             else dict_get c d)
    /\ map fst d'
       = if existsb (String.eqb (main_category e)) (map fst d) then map fst d
         else map fst d ++ [main_category e].
Proof.
  unfold add_deduction. set (k := main_category e).
  destruct (dict_get k d) as [v | ] eqn:Hk.
  - rewrite Hk. eexists. split; [reflexivity | split].
    + intros c. destruct (String.eqb c k) eqn:E.
      * apply String.eqb_eq in E. subst c.
        rewrite dict_get_set_same, Hk. reflexivity.
      * apply dict_get_set_other. exact E.
    + rewrite dict_set_keys.
      destruct (existsb (String.eqb k) (map fst d)) eqn:Hin; [reflexivity | ].
      apply dict_get_none_keys in Hin. congruence.
  - rewrite dict_get_set_same. eexists. split; [reflexivity | split].
    + intros c. destruct (String.eqb c k) eqn:E.
      * apply String.eqb_eq in E. subst c.
        rewrite dict_get_set_same, Hk. reflexivity.
      * rewrite !dict_get_set_other by exact E. reflexivity.
    + rewrite !dict_set_keys.
      apply dict_get_none_keys in Hk. rewrite Hk.
      rewrite existsb_app. cbn [existsb]. rewrite String.eqb_refl.
      rewrite Bool.orb_true_r. reflexivity.
Qed.

Lemma categorize_from_some (expenses_data : list expense) :
  forall d : amounts_by_category,
  exists d',
    categorize_from d expenses_data = Some d'
    /\ (forall c,
           dict_get c d'
           = expected_amount (dict_get c d) (amounts_of c expenses_data))
    /\ map fst d'
       = map fst d
         ++ first_occurrences (map fst d) (map main_category expenses_data).
Proof.
  induction expenses_data as [ | e rest IH]; intros d.
  - exists d. cbn. split; [reflexivity | split].
    + intros c. destruct (dict_get c d); reflexivity.
    + rewrite app_nil_r. reflexivity.
  - destruct (add_deduction_some d e) as [d1 [Hadd [Hget Hkeys]]].
    destruct (IH d1) as [d' [Hrest [Hget' Hkeys']]].
    exists d'. cbn [categorize_from]. rewrite Hadd.
    split; [exact Hrest | split].
    + intros c. rewrite Hget', Hget. unfold amounts_of.
      cbn [filter]. destruct (String.eqb c (main_category e)); cbn [map].
      * destruct (dict_get c d); reflexivity.
      * reflexivity.
    + rewrite Hkeys', Hkeys. cbn [map first_occurrences].
      destruct (existsb (String.eqb (main_category e)) (map fst d));
        [reflexivity | ].
      rewrite <- app_assoc. reflexivity.
Qed.

Lemma amounts_of_nil (c : string) (expenses_data : list expense) :
  existsb (String.eqb c) (map main_category expenses_data) = false ->
  amounts_of c expenses_data = [].
Proof.
  unfold amounts_of.
  induction expenses_data as [ | e rest IH]; cbn [map existsb filter];
    [reflexivity | ].
  destruct (String.eqb c (main_category e)); cbn [orb];
    [discriminate | exact IH].
Qed.

Lemma amounts_of_cons (c : string) (expenses_data : list expense) :
  existsb (String.eqb c) (map main_category expenses_data) = true ->
  amounts_of c expenses_data <> [].
Proof.
  unfold amounts_of.
  induction expenses_data as [ | e rest IH]; cbn [map existsb filter];
    [discriminate | ].
  destruct (String.eqb c (main_category e)); cbn [orb map];
    [discriminate | exact IH].
Qed.

(** The loop over the expenses always ends with a dict. *)
Lemma deductions_lookup_total (expenses_data : list expense) :
  exists deductions, categorize expenses_data = Some deductions.
Proof.
  destruct (categorize_from_some expenses_data []) as [d [Hrun _]].
  exists d. exact Hrun.
Qed.

(** X1.  The loop over the expenses never meets a missing key; the dict
    it builds has one entry for each category that occurs, in the order
    of first occurrence, and the entry of a category is the sum of the
    amounts of its expenses, added in the order of the expenses. *)
Theorem deductions_by_category (expenses_data : list expense) :
  exists deductions,
    categorize expenses_data = Some deductions
    /\ map fst deductions
       = first_occurrences [] (map main_category expenses_data)
    /\ forall category,
        dict_get category deductions
        = if existsb (String.eqb category)
               (map main_category expenses_data)
          then Some (py_sum (amounts_of category expenses_data))
          else None.
Proof.
  destruct (categorize_from_some expenses_data []) as [d [Hrun [Hget Hkeys]]].
  exists d. split; [exact Hrun | split; [exact Hkeys | ]].
  intros c. rewrite Hget. cbn [dict_get expected_amount].
  destruct (existsb (String.eqb c) (map main_category expenses_data)) eqn:E.
  - pose proof (amounts_of_cons c expenses_data E) as Hne.
    destruct (amounts_of c expenses_data); [congruence | reflexivity].
  - rewrite (amounts_of_nil c expenses_data E). reflexivity.
Qed.

(** *** Outside the table, and the rates *)

(** An income that is not at least zero is not at least a positive bound. *)
Lemma below_zero_below (bound x : float) :
  (0 <=? bound) = true -> (0 <=? x) = false -> (bound <=? x) = false.
Proof.
  intros Hbound Hx. destruct (bound <=? x) eqn:E; [ | reflexivity].
  rewrite (leb_trans 0 bound x Hbound E) in Hx. discriminate.
Qed.

(** X2.  An income that is not at least zero (a negative amount, or a NaN)
    is in no bracket and gets [(0, 0)]; and whatever the income, the rate
    returned is one of the four rates of the table. *)
Theorem small_business_tax_outside_table (taxable_income : float) :
  ((0 <=? taxable_income) = false ->
   calculate_small_business_tax taxable_income = (0, 0))
  /\ In (snd (calculate_small_business_tax taxable_income))
       [0; 0.07; 0.21; 0.28].
Proof.
  unfold calculate_small_business_tax, tax_brackets.
  cbn [bracket_loop in_bracket bracket_tax]. split.
  - intros Hneg. rewrite Hneg. cbn [andb].
    rewrite (below_zero_below 91251 _ (eq_refl true) Hneg),
            (below_zero_below 365001 _ (eq_refl true) Hneg),
            (below_zero_below 550001 _ (eq_refl true) Hneg).
    reflexivity.
  - destruct ((0 <=? taxable_income) && (taxable_income <=? 91250));
      [cbn; auto | ].
    destruct ((91251 <=? taxable_income) && (taxable_income <=? 365000));
      [cbn; auto | ].
    destruct ((365001 <=? taxable_income) && (taxable_income <=? 550000));
      [cbn; auto | ].
    destruct ((550001 <=? taxable_income) && (taxable_income <=? infinity));
      cbn; auto.
Qed.

Lemma small_business_tax_outside_table_witness :
  (0 <=? -250.75) = false
  /\ calculate_small_business_tax (-250.75) = (0, 0).
Proof.
  split; [reflexivity | ].
  exact (proj1 (small_business_tax_outside_table (-250.75)) (eq_refl false)).
Defined.

(** *** No profit, no tax *)

Lemma tax_for_zero (kind : option string) :
  fst (tax_for kind 0) = 0
  /\ In (snd (tax_for kind 0)) [0; 0.27].
Proof.
  unfold tax_for. destruct kind as [name | ].
  - destruct (String.eqb name "Small Business Corporation");
      split; cbn; auto.
  - split; cbn; auto.
Qed.

(** The quotients are all there when no asset has an expected life of
    zero, and the first such asset raises. *)
Lemma annual_depreciations_ok (assets_data : list asset_row) :
  Forall (fun a => (expected_life a =? 0) = false) assets_data ->
  annual_depreciations assets_data
  = Ok (map (fun a => purchase_cost a / expected_life a) assets_data).
Proof.
  induction 1 as [ | a rest Ha _ IH]; [reflexivity | ].
  cbn [annual_depreciations map]. unfold py_div. rewrite Ha, IH.
  reflexivity.
Qed.

Lemma annual_depreciations_raise (assets_data : list asset_row) :
  Exists (fun a => (expected_life a =? 0) = true) assets_data ->
  annual_depreciations assets_data = Raise ZeroDivisionError.
Proof.
  induction 1 as [a rest Ha | a rest _ IH];
    cbn [annual_depreciations]; unfold py_div.
  - rewrite Ha. reflexivity.
  - rewrite IH. destruct (expected_life a =? 0); reflexivity.
Qed.

(** X3.  When no asset has an expected life of zero and the revenue less
    the deductions is not above zero, the taxable income is zero and so is
    the tax, on the Tax Calculator page and on the Reports page, for every
    business type and however [sum] rounds. *)
Theorem no_profit_no_tax (builtin_sum : list float -> float)
  (business_data : business)
  (expenses_data : list expense) (assets_data : list asset_row) :
  Forall (fun a => (expected_life a =? 0) = false) assets_data ->
  let total_revenue :=
    get_or_zero (gross_revenue business_data)
    + get_or_zero (other_income business_data) in
  let total_expenses := sum_of_expenses builtin_sum expenses_data in
  let total_depreciation :=
    builtin_sum
      (map (fun a => purchase_cost a / expected_life a) assets_data) in
  ((0 <? total_revenue - (total_expenses + total_depreciation)) = false ->
   exists tax_rate,
     calculator_page builtin_sum business_data expenses_data assets_data
     = Ok (0, 0, tax_rate))
  /\ ((0 <? total_revenue - total_expenses - total_depreciation) = false ->
      exists summary,
        report_summary builtin_sum business_data expenses_data assets_data
        = Ok summary
        /\ summary_taxable_income summary = 0
        /\ summary_estimated_tax summary = 0).
Proof.
  intros Hlives. cbv zeta. split; intros Hloss.
  - unfold calculator_page, sum_of_depreciation.
    rewrite (annual_depreciations_ok assets_data Hlives).
    unfold taxable_income_calculator, py_max. rewrite Hloss.
    destruct (tax_for_zero (business_type business_data)) as [Hzero _].
    destruct (tax_for (business_type business_data) 0) as [tax_amount tax_rate].
    cbn [fst] in Hzero. subst tax_amount. exists tax_rate. reflexivity.
  - unfold report_summary, sum_of_depreciation.
    rewrite (annual_depreciations_ok assets_data Hlives).
    unfold taxable_income_report, py_max. rewrite Hloss.
    destruct (deductions_lookup_total expenses_data) as [d Hd]. rewrite Hd.
    destruct (tax_for_zero (business_type business_data)) as [Hzero _].
    destruct (tax_for (business_type business_data) 0) as [tax_amount tax_rate].
    cbn [fst] in Hzero. subst tax_amount.
    eexists. split; [reflexivity | split; reflexivity].
Qed.

Lemma no_profit_no_tax_witness :
  let business_data :=
    {| business_type := Some "Small Business Corporation"%string;
       gross_revenue := Some 50000;
       other_income := None |} in
  let expenses_data :=
    [ {| main_category := "Operating Costs"; amount := 42000.5 |};
      {| main_category := "Employee Costs"; amount := 7000 |} ] in
  let assets_data := [ {| purchase_cost := 12000; expected_life := 5 |} ] in
  calculator_page py_sum business_data expenses_data assets_data
  = Ok (0, 0, 0).
Proof.
  cbv zeta.
  destruct (proj1 (no_profit_no_tax py_sum
                     {| business_type := Some "Small Business Corporation"%string;
                        gross_revenue := Some 50000;
                        other_income := None |}
                     [ {| main_category := "Operating Costs"; amount := 42000.5 |};
                       {| main_category := "Employee Costs"; amount := 7000 |} ]
                     [ {| purchase_cost := 12000; expected_life := 5 |} ]
                     ltac:(repeat constructor))
             (eq_refl false)) as [tax_rate H].
  rewrite H. vm_compute in H.
  injection H as <-. reflexivity.
Defined.

(** *** An asset at the end of its life *)

(** A number that is not infinite, less itself, is zero. *)
Lemma sub_diag (x : float) :
  (0 <=? x) = true -> (exists y, (x <? y) = true) -> x - x = 0.
Proof.
  intros Hpos [y Hlt]. apply Prim2SF_inj. rewrite sub_spec.
  rewrite leb_spec in Hpos. rewrite ltb_spec in Hlt.
  change (Prim2SF 0) with (S754_zero false) in *.
  unfold SFleb, SFltb in *.
  destruct (Prim2SF x) as [sg | sg | | sg m e].
  - destruct sg; reflexivity.
  - destruct sg; [discriminate Hpos | ].
    destruct (Prim2SF y) as [tg | tg | | tg n f]; try destruct tg;
      discriminate Hlt.
  - discriminate Hpos.
  - unfold SF64sub, SFsub. rewrite Z.sub_diag. reflexivity.
Qed.

(** X4.  With an expected life other than zero, once the years owned times
    the annual depreciation exceed the cost, the accumulated depreciation
    is the cost itself and the current value is exactly zero. *)
Theorem fully_depreciated (days : Z) (row : asset_row) :
  (0 <=? purchase_cost row) = true ->
  (expected_life row =? 0) = false ->
  (purchase_cost row
   <? years_owned days * (purchase_cost row / expected_life row)) = true ->
  exists d,
    calculate_depreciation days row = Ok d
    /\ accumulated_depreciation d = purchase_cost row
    /\ current_value d = 0.
Proof.
  intros Hcost Hlife Hover.
  unfold calculate_depreciation, py_div. rewrite Hlife.
  eexists. split; [reflexivity | ].
  cbn [accumulated_depreciation current_value].
  unfold py_min. rewrite Hover. split; [reflexivity | ].
  rewrite (sub_diag (purchase_cost row) Hcost (ex_intro _ _ Hover)).
  reflexivity.
Qed.

Lemma fully_depreciated_witness :
  let row := {| purchase_cost := 1250.75; expected_life := 3 |} in
  (0 <=? purchase_cost row) = true
  /\ (expected_life row =? 0) = false
  /\ (purchase_cost row
      <? years_owned 2000 * (purchase_cost row / expected_life row)) = true
  /\ exists d,
       calculate_depreciation 2000 row = Ok d
       /\ accumulated_depreciation d = 1250.75
       /\ current_value d = 0.
Proof.
  cbv zeta. do 3 (split; [reflexivity | ]).
  exact (fully_depreciated 2000
           {| purchase_cost := 1250.75; expected_life := 3 |}
           (eq_refl true) (eq_refl false) (eq_refl true)).
Defined.

(** *** The signs of the taxes *)

(** X15.  Under the standard rules the tax of an income of at least zero
    is a number of at least zero. *)
Theorem standard_tax_nonneg (taxable_income : float) :
  (0 <=? taxable_income) = true ->
  (0 <=? fst (calculate_business_tax taxable_income)) = true.
Proof.
  intros Hx. unfold calculate_business_tax. cbn [fst].
  apply (mul_nonneg taxable_income 0.27 4863887597560136 (-54));
    [reflexivity | exact Hx].
Qed.

Lemma standard_tax_nonneg_witness :
  (0 <=? 91251.37) = true
  /\ (0 <=? fst (calculate_business_tax 91251.37)) = true.
Proof.
  split; [reflexivity | ].
  exact (standard_tax_nonneg 91251.37 (eq_refl true)).
Defined.

(** Taking zero off a number leaves it as it is. *)
Lemma sub_zero (x : float) :
  match Prim2SF x with
  | S754_zero _ | S754_finite _ _ _ => True
  | _ => False
  end ->
  x - 0 = x.
Proof.
  intros Hx. apply Prim2SF_inj. rewrite sub_spec.
  change (Prim2SF 0) with (S754_zero false).
  destruct (Prim2SF x) as [s | s | | s m e]; try contradiction.
  - destruct s; reflexivity.
  - reflexivity.
Qed.

(** An income in the first bracket, plus one, times zero, is zero. *)
Lemma first_bracket_product (x : float) :
  (0 <=? x) = true -> (x <=? 91250) = true -> (x + 1) * 0 = 0.
Proof.
  intros Hpos Hle. apply nonneg_shape in Hpos.
  pose proof (Prim2SF_valid x) as Hvalid.
  rewrite leb_spec in Hle.
  change (Prim2SF 91250) with (S754_finite false 6270652252160000 (-36)) in Hle.
  apply Prim2SF_inj. rewrite mul_spec, add_spec.
  change (Prim2SF 0) with (S754_zero false).
  change (Prim2SF 1) with (S754_finite false 4503599627370496 (-52)).
  destruct (Prim2SF x) as [s | s | | s m e]; try contradiction.
  - reflexivity.
  - subst s. discriminate Hle.
  - subst s.
    assert (He : (e <= -36)%Z).
    { unfold SFleb in Hle. cbn [SFcompare] in Hle.
      destruct (Z.compare_spec e (-36)); [lia | lia | discriminate Hle]. }
    pose proof (valid_digits _ _ _ Hvalid) as Hd.
    pose proof (SFadd_finite m 4503599627370496 e (-52) 17) as Hsum.
    cbn [digits2_pos Pos.succ] in Hsum.
    specialize (Hsum ltac:(lia) ltac:(lia) ltac:(lia)).
    remember (SF64add (S754_finite false m e)
                (S754_finite false 4503599627370496 (-52))) as r eqn:Er.
    clear Er.
    destruct r as [s | s | | s m' e']; try contradiction; subst s;
      reflexivity.
Qed.

Lemma first_bracket_tax (x : float) :
  (0 <=? x) = true -> (x <=? 91250) = true -> 0 + (x - 0 + 1) * 0 = 0.
Proof.
  intros Hpos Hle. rewrite sub_zero.
  - rewrite (first_bracket_product x Hpos Hle). reflexivity.
  - apply nonneg_shape in Hpos. rewrite leb_spec in Hle.
    change (Prim2SF 91250)
      with (S754_finite false 6270652252160000 (-36)) in Hle.
    destruct (Prim2SF x) as [s | s | | s m e];
      try exact I; try contradiction.
    subst s. discriminate Hle.
Qed.

(** X16.  Under the small-business rules an income from zero to 91,250
    owes exactly nothing, at the rate zero. *)
Theorem first_bracket_owes_nothing (taxable_income : float) :
  (0 <=? taxable_income) = true ->
  (taxable_income <=? 91250) = true ->
  calculate_small_business_tax taxable_income = (0, 0).
Proof.
  intros Hpos Hle.
  unfold calculate_small_business_tax, tax_brackets.
  cbn [bracket_loop in_bracket bracket_tax].
  rewrite Hpos, Hle. cbn [andb].
  rewrite (first_bracket_tax taxable_income Hpos Hle). reflexivity.
Qed.

Lemma first_bracket_owes_nothing_witness :
  (0 <=? 91249.99) = true
  /\ (91249.99 <=? 91250) = true
  /\ calculate_small_business_tax 91249.99 = (0, 0).
Proof.
  split; [reflexivity | split; [reflexivity | ]].
  exact (first_bracket_owes_nothing 91249.99 (eq_refl true) (eq_refl true)).
Defined.

(** The formula of a row above the first, on an income at or above the
    lower bound of the row. *)
Lemma upper_bracket_nonneg (x min_income rate base_tax : float)
  (mm mr : positive) (em er : Z) :
  Prim2SF min_income = S754_finite false mm em ->
  Prim2SF rate = S754_finite false mr er ->
  (0 <=? base_tax) = true ->
  (min_income <=? x) = true ->
  (0 <=? base_tax + (x - min_income + 1) * rate) = true.
Proof.
  intros Hmin Hrate Hbase Hle.
  apply add_nonneg; [exact Hbase | ].
  apply (mul_nonneg _ rate mr er Hrate).
  apply add_nonneg; [ | reflexivity].
  exact (sub_nonneg x min_income mm em Hmin Hle).
Qed.

Lemma bracket_loop_nonneg (x : float) :
  (0 <=? fst (bracket_loop tax_brackets x)) = true.
Proof.
  unfold tax_brackets. cbn [bracket_loop in_bracket bracket_tax].
  destruct (0 <=? x) eqn:H1; destruct (x <=? 91250) eqn:H1'; cbn [andb].
  { cbn [fst]. rewrite (first_bracket_tax x H1 H1'). reflexivity. }
  all: destruct (91251 <=? x) eqn:H2; destruct (x <=? 365000) eqn:H2';
    cbn [andb];
    try (cbn [fst];
         apply (upper_bracket_nonneg x 91251 0.07 0
                  6270720971636736 5044031582654956 (-36) (-56));
         [reflexivity | reflexivity | reflexivity | exact H2]).
  all: destruct (365001 <=? x) eqn:H3; destruct (x <=? 550000) eqn:H3';
    cbn [andb];
    try (cbn [fst];
         apply (upper_bracket_nonneg x 365001 0.21 19162.50
                  6270669432029184 7566047373982433 (-34) (-55));
         [reflexivity | reflexivity | reflexivity | exact H3]).
  all: destruct (550001 <=? x) eqn:H4; destruct (x <=? infinity) eqn:H4';
    cbn [andb];
    try (cbn [fst];
         apply (upper_bracket_nonneg x 550001 0.28 58037.50
                  4724472615534592 5044031582654956 (-33) (-54));
         [reflexivity | reflexivity | reflexivity | exact H4]).
  all: reflexivity.
Qed.

(** X17.  Whatever it is given, negative amounts and NaN included,
    [calculate_small_business_tax] returns a tax that is a number of at
    least zero. *)
Theorem small_business_tax_nonneg (taxable_income : float) :
  (0 <=? fst (calculate_small_business_tax taxable_income)) = true.
Proof. exact (bracket_loop_nonneg taxable_income). Qed.

Lemma tax_for_nonneg (kind : option string) (taxable_income : float) :
  (0 <=? taxable_income) = true ->
  (0 <=? fst (tax_for kind taxable_income)) = true.
Proof.
  intros Hx.
  assert (Hstandard : (0 <=? fst (calculate_business_tax taxable_income)) = true).
  { unfold calculate_business_tax. cbn [fst].
    apply (mul_nonneg taxable_income 0.27 4863887597560136 (-54));
      [reflexivity | exact Hx]. }
  unfold tax_for. destruct kind as [name | ]; [ | exact Hstandard].
  destruct (String.eqb name "Small Business Corporation");
    [apply bracket_loop_nonneg | exact Hstandard].
Qed.

(** X18.  When no asset has an expected life of zero, whatever else is
    stored for the business, its expenses and its assets and however [sum]
    rounds, both pages return, and the taxable income and the tax of the
    Tax Calculator page and of the summary of the Reports page are numbers
    of at least zero. *)
Theorem pages_never_negative (builtin_sum : list float -> float)
  (business_data : business)
  (expenses_data : list expense) (assets_data : list asset_row) :
  Forall (fun a => (expected_life a =? 0) = false) assets_data ->
  (exists taxable_income tax_amount tax_rate,
      calculator_page builtin_sum business_data expenses_data assets_data
      = Ok (taxable_income, tax_amount, tax_rate)
      /\ (0 <=? taxable_income) = true /\ (0 <=? tax_amount) = true)
  /\ exists summary,
       report_summary builtin_sum business_data expenses_data assets_data
       = Ok summary
       /\ (0 <=? summary_taxable_income summary) = true
       /\ (0 <=? summary_estimated_tax summary) = true.
Proof.
  intros Hlives. split.
  - unfold calculator_page, sum_of_depreciation.
    rewrite (annual_depreciations_ok assets_data Hlives).
    unfold taxable_income_calculator. cbv zeta.
    match goal with
    | |- context [tax_for ?k (py_max 0 ?y)] =>
        pose proof (BtaxSpec.py_max_zero_nonneg y) as Hincome;
        pose proof (tax_for_nonneg k (py_max 0 y) Hincome) as Htax;
        destruct (tax_for k (py_max 0 y)) as [tax_amount tax_rate]
    end.
    cbn [fst] in Htax.
    eexists. eexists. eexists. split; [reflexivity | split; assumption].
  - unfold report_summary, sum_of_depreciation.
    rewrite (annual_depreciations_ok assets_data Hlives).
    unfold taxable_income_report. cbv zeta.
    destruct (deductions_lookup_total expenses_data) as [d Hd]. rewrite Hd.
    match goal with
    | |- context [tax_for ?k (py_max 0 ?y)] =>
        pose proof (BtaxSpec.py_max_zero_nonneg y) as Hincome;
        pose proof (tax_for_nonneg k (py_max 0 y) Hincome) as Htax;
        destruct (tax_for k (py_max 0 y)) as [tax_amount tax_rate]
    end.
    cbn [fst] in Htax.
    eexists. split; [reflexivity | ]. cbn. split; assumption.
Qed.

Lemma pages_never_negative_witness :
  exists taxable_income tax_amount tax_rate,
    calculator_page py_sum
      {| business_type := Some "Company"%string;
         gross_revenue := Some 250000.5;
         other_income := Some 1200 |}
      [ {| main_category := "Operating Costs"; amount := 42000.5 |} ]
      [ {| purchase_cost := 12000; expected_life := 5 |};
        {| purchase_cost := 900.9; expected_life := 3 |} ]
    = Ok (taxable_income, tax_amount, tax_rate)
    /\ (0 <=? taxable_income) = true /\ (0 <=? tax_amount) = true.
Proof.
  apply (proj1 (pages_never_negative py_sum
                  {| business_type := Some "Company"%string;
                     gross_revenue := Some 250000.5;
                     other_income := Some 1200 |}
                  [ {| main_category := "Operating Costs"; amount := 42000.5 |} ]
                  [ {| purchase_cost := 12000; expected_life := 5 |};
                    {| purchase_cost := 900.9; expected_life := 3 |} ]
                  ltac:(repeat constructor))).
Defined.

(** *** An asset with an expected life of zero *)

(** X19.  An asset stored with an expected life of zero makes the Tax
    Calculator page and the Reports page raise [ZeroDivisionError],
    whatever else is stored, and [calculate_depreciation] raises it on
    such a row. *)
Theorem zero_life_raises (builtin_sum : list float -> float)
  (business_data : business)
  (expenses_data : list expense) (assets_data : list asset_row) :
  Exists (fun a => (expected_life a =? 0) = true) assets_data ->
  calculator_page builtin_sum business_data expenses_data assets_data
  = Raise ZeroDivisionError
  /\ report_summary builtin_sum business_data expenses_data assets_data
     = Raise ZeroDivisionError
  /\ exists row,
       In row assets_data
       /\ forall days, calculate_depreciation days row = Raise ZeroDivisionError.
Proof.
  intros Hzero. split; [ | split].
  - unfold calculator_page, sum_of_depreciation.
    rewrite (annual_depreciations_raise assets_data Hzero). reflexivity.
  - unfold report_summary, sum_of_depreciation.
    rewrite (annual_depreciations_raise assets_data Hzero). reflexivity.
  - apply Exists_exists in Hzero. destruct Hzero as [row [Hin Hlife]].
    exists row. split; [exact Hin | ]. intros days.
    unfold calculate_depreciation, py_div. rewrite Hlife. reflexivity.
Qed.

Lemma zero_life_raises_witness :
  calculator_page py_sum
    {| business_type := None; gross_revenue := Some 5000; other_income := None |}
    []
    [ {| purchase_cost := 12000; expected_life := 5 |};
      {| purchase_cost := 1000; expected_life := 0 |} ]
  = Raise ZeroDivisionError.
Proof.
  apply (proj1 (zero_life_raises py_sum
                  {| business_type := None;
                     gross_revenue := Some 5000;
                     other_income := None |}
                  []
                  [ {| purchase_cost := 12000; expected_life := 5 |};
                    {| purchase_cost := 1000; expected_life := 0 |} ]
                  ltac:(right; left; reflexivity))).
Defined.

End BtaxPages.

(** ** The retry policy, the summary and the upload *)

Module DocumentRSpec.
Import DocumentR.
#[local] Open Scope string_scope.
#[local] Open Scope list_scope.

Lemma count_app (kind : event -> bool) (tr tr' : trace) :
  count kind (tr ++ tr') = (count kind tr + count kind tr')%nat.
Proof. unfold count. rewrite filter_app, length_app. reflexivity. Qed.

Lemma documents_app (tr tr' : trace) :
  documents (tr ++ tr') = documents tr ++ documents tr'.
Proof.
  induction tr as [ | ev tr IH]; [reflexivity | ].
  destruct ev; simpl; rewrite IH; reflexivity.
Qed.

Section Policy.
Variable env : environment.
Variable template : string.
Variable variables : dict.
Variable max_retries : Z.

Lemma backoff_invokes (attempt failures drawn : nat) :
  count is_invoke (backoff env template variables attempt failures drawn) = failures.
Proof.
  revert attempt drawn.
  induction failures as [ | more IH]; intros; [reflexivity | ].
  cbn [backoff]. change (count is_invoke (?a :: ?b :: ?c :: ?l))
    with (S (count is_invoke l)).
  rewrite IH. reflexivity.
Qed.

Lemma backoff_randoms (attempt failures drawn : nat) :
  count is_random (backoff env template variables attempt failures drawn) = failures.
Proof.
  revert attempt drawn.
  induction failures as [ | more IH]; intros; [reflexivity | ].
  cbn [backoff]. change (count is_random (?a :: ?b :: ?c :: ?l))
    with (S (count is_random l)).
  rewrite IH. reflexivity.
Qed.

Lemma backoff_fallbacks (attempt failures drawn : nat) :
  count is_fallback (backoff env template variables attempt failures drawn) = O.
Proof.
  revert attempt drawn.
  induction failures as [ | more IH]; intros; [reflexivity | ].
  cbn [backoff]. change (count is_fallback (?a :: ?b :: ?c :: ?l))
    with (count is_fallback l).
  apply IH.
Qed.

(** The pauses grow as [2 ^ attempt], each with its own random jitter. *)
Lemma backoff_sleeps (attempt failures drawn : nat) :
  sleeps (backoff env template variables attempt failures drawn)
  = map (fun k => wait_time env (attempt + k) (drawn + k)) (seq 0 failures).
Proof.
  revert attempt drawn.
  induction failures as [ | more IH]; intros; [reflexivity | ].
  cbn [backoff sleeps seq map]. rewrite IH, <- seq_shift, map_map.
  rewrite !Nat.add_0_r. f_equal.
  apply map_ext. intros k. rewrite <- !plus_n_Sm. reflexivity.
Qed.

(** A run of rate-limited failures, none of them the last attempt, is
    retried after a pause each. *)
Lemma retry_loop_backoff (failures : nat) :
  forall (attempt remaining : nat) (tr : trace),
    (Z.of_nat (attempt + failures) <= max_retries - 1)%Z ->
    (forall k, (k < failures)%nat ->
       exists e,
         hosted_model env (count is_invoke tr + k) template variables
         = Raises e
         /\ rate_limited e = true) ->
    retry_loop env (invoke env template) variables max_retries
      (map Z.of_nat (seq attempt (failures + remaining))) tr
    = retry_loop env (invoke env template) variables max_retries
        (map Z.of_nat (seq (attempt + failures) remaining))
        (tr ++ backoff env template variables attempt failures (count is_random tr)).
Proof.
  induction failures as [ | more IH]; intros attempt remaining tr Hlast Hfail.
  - cbn [backoff plus]. rewrite Nat.add_0_r, app_nil_r. reflexivity.
  - destruct (Hfail O (Nat.lt_0_succ more)) as [e [He Hrate]].
    rewrite Nat.add_0_r in He.
    cbn [plus seq map retry_loop].
    unfold try_except at 1, bind at 1, invoke at 1. rewrite He.
    rewrite Hrate. cbn [andb].
    replace (Z.of_nat attempt <? max_retries - 1)%Z with true
      by (symmetry; apply Z.ltb_lt; lia).
    unfold bind at 1, random at 1. unfold bind at 1, time_sleep, emit.
    rewrite count_app. cbn [count filter is_random List.length].
    rewrite Nat.add_0_r.
    change (float_of_int (2 ^ Z.of_nat attempt)
            + random_random env (count is_random tr))%float
      with (wait_time env attempt (count is_random tr)).
    rewrite IH.
    + rewrite <- !app_assoc. cbn [app backoff].
      rewrite !count_app. cbn [count filter is_random List.length].
      rewrite <- plus_n_Sm, <- !plus_n_O, <- plus_n_Sm.
      reflexivity.
    + lia.
    + intros k Hk. destruct (Hfail (S k)) as [e' He']; [lia | ].
      exists e'.
      match goal with
      | |- hosted_model env (?n + k) _ _ = _ /\ _ =>
          replace (n + k)%nat with (count is_invoke tr + S k)%nat;
          [exact He' | ]
      end.
      rewrite !count_app. cbn [count filter is_invoke List.length]. lia.
Qed.

#[local] Notation "'run_loop'" :=
  (retry_loop env (invoke env template) variables max_retries).

(** One attempt that succeeds. *)
Lemma attempt_returns (attempt : Z) (rest : list Z) (tr : trace) (v : string) :
  hosted_model env (count is_invoke tr) template variables = Returns v ->
  run_loop (attempt :: rest) tr
  = (Returns (Some v), tr ++ [Invoke template variables]).
Proof.
  intros Hv. cbn [retry_loop].
  unfold try_except, bind at 1, invoke at 1. rewrite Hv. reflexivity.
Qed.

(** One failed attempt that is neither retried nor the last one. *)
Lemma attempt_reraises (attempt : Z) (rest : list Z) (tr : trace) (e : exn) :
  hosted_model env (count is_invoke tr) template variables = Raises e ->
  rate_limited e = false ->
  (attempt =? max_retries - 1)%Z = false ->
  run_loop (attempt :: rest) tr
  = (Raises e, tr ++ [Invoke template variables]).
Proof.
  intros He Hrate Hlast. cbn [retry_loop].
  unfold try_except, bind at 1, invoke at 1. rewrite He.
  rewrite Hrate, Hlast. reflexivity.
Qed.

(** The last attempt, failed: whatever the failure, the local model is
    asked once, with [max_length=100], and its first text is returned. *)
Lemma attempt_falls_back (attempt : Z) (rest : list Z) (tr : trace)
  (e : exn) (g : generation) (gs : list generation) :
  hosted_model env (count is_invoke tr) template variables = Raises e ->
  (attempt =? max_retries - 1)%Z = true ->
  fallback_model env (count is_fallback tr) variables 100
  = Returns (g :: gs) ->
  run_loop (attempt :: rest) tr
  = (Returns (Some (generated_text g)),
     tr ++ [ Invoke template variables;
             Warning "API limit reached. Falling back to local model.";
             Fallback variables 100 ]).
Proof.
  intros He Hlast Hlocal. cbn [retry_loop].
  unfold try_except, bind at 1, invoke at 1. rewrite He.
  apply Z.eqb_eq in Hlast.
  replace (attempt <? max_retries - 1)%Z with false
    by (symmetry; apply Z.ltb_ge; lia).
  rewrite Bool.andb_false_r.
  replace (attempt =? max_retries - 1)%Z with true
    by (symmetry; apply Z.eqb_eq; exact Hlast).
  unfold bind, st_warning, emit, call_fallback, lift, ret.
  rewrite !count_app. cbn [count filter is_fallback List.length].
  rewrite <- !plus_n_O, Hlocal. cbn [first_generated_text].
  rewrite <- !app_assoc. reflexivity.
Qed.

End Policy.

Section PolicyRuns.
Variable env : environment.
Variable template : string.
Variable variables : dict.

(** The policy after [failed] rate-limited failures in a row, more
    attempts being left. *)
Lemma policy_after_failures (N failed : nat) (tr : trace) :
  (failed < N)%nat ->
  (forall k, (k < failed)%nat ->
     exists e,
       hosted_model env (count is_invoke tr + k) template variables
       = Raises e
       /\ rate_limited e = true) ->
  process_with_retry env (invoke env template) variables (Z.of_nat N) tr
  = retry_loop env (invoke env template) variables (Z.of_nat N)
      (Z.of_nat failed :: map Z.of_nat (seq (S failed) (N - S failed)))
      (tr ++ backoff env template variables 0 failed (count is_random tr)).
Proof.
  intros Hlt Hfail. unfold process_with_retry, range.
  rewrite Nat2Z.id.
  replace N with (failed + S (N - S failed))%nat at 2 by lia.
  rewrite (retry_loop_backoff env template variables (Z.of_nat N) failed
             0 (S (N - S failed)) tr); [ | lia | exact Hfail].
  reflexivity.
Qed.

Lemma invokes_after_backoff (failed drawn : nat) (tr : trace) :
  count is_invoke (tr ++ backoff env template variables 0 failed drawn)
  = (count is_invoke tr + failed)%nat.
Proof. rewrite count_app, backoff_invokes. reflexivity. Qed.

Lemma fallbacks_after_backoff (failed drawn : nat) (tr : trace) :
  count is_fallback (tr ++ backoff env template variables 0 failed drawn)
  = count is_fallback tr.
Proof. rewrite count_app, backoff_fallbacks. apply Nat.add_0_r. Qed.

(** C2.  With [N] attempts allowed: when the first [N - 1] attempts fail
    with a rate-limit signal and attempt [N] succeeds, its value is
    returned and the local model is not asked; when attempt [N] fails
    with a rate-limit signal too, the local model is asked exactly once
    and its output is returned.  Each retry is preceded by a pause of
    [2 ^ attempt] seconds plus a random number. *)
Theorem rate_limit_retries (N : nat) (tr : trace) :
  (1 <= N)%nat ->
  (forall k, (k < N - 1)%nat ->
     exists e,
       hosted_model env (count is_invoke tr + k) template variables
       = Raises e
       /\ rate_limited e = true) ->
  let run :=
    process_with_retry env (invoke env template) variables (Z.of_nat N) tr in
  let retried :=
    backoff env template variables 0 (N - 1) (count is_random tr) in
  (forall v,
      hosted_model env (count is_invoke tr + (N - 1)) template variables
      = Returns v ->
      run = (Returns (Some v), tr ++ retried ++ [Invoke template variables])
      /\ count is_fallback (snd run) = count is_fallback tr)
  /\ (forall e g gs,
         hosted_model env (count is_invoke tr + (N - 1)) template variables
         = Raises e ->
         rate_limited e = true ->
         fallback_model env (count is_fallback tr) variables 100
         = Returns (g :: gs) ->
         run = (Returns (Some (generated_text g)),
                tr ++ retried
                   ++ [ Invoke template variables;
                        Warning "API limit reached. Falling back to local model.";
                        Fallback variables 100 ])
         /\ count is_fallback (snd run) = S (count is_fallback tr))
  /\ sleeps retried
     = map (fun attempt =>
              (float_of_int (2 ^ Z.of_nat attempt)
               + random_random env (count is_random tr + attempt))%float)
         (seq 0 (N - 1)).
Proof.
  intros HN Hfail run retried.
  assert (Hrun : run
                 = retry_loop env (invoke env template) variables (Z.of_nat N)
                     (Z.of_nat (N - 1)
                        :: map Z.of_nat (seq (S (N - 1)) (N - S (N - 1))))
                     (tr ++ retried)).
  { apply policy_after_failures; [lia | exact Hfail]. }
  subst retried. split; [ | split].
  - intros v Hv. rewrite Hrun.
    rewrite (attempt_returns env template variables (Z.of_nat N) _ _ _ v)
      by (rewrite invokes_after_backoff; exact Hv).
    rewrite <- app_assoc. split; [reflexivity | ].
    cbn [snd]. rewrite app_assoc, count_app, fallbacks_after_backoff.
    apply Nat.add_0_r.
  - intros e g gs He _ Hlocal. rewrite Hrun.
    rewrite (attempt_falls_back env template variables (Z.of_nat N)
               _ _ _ e g gs).
    + rewrite <- app_assoc. split; [reflexivity | ].
      cbn [snd]. rewrite app_assoc, count_app, fallbacks_after_backoff.
      cbn [count filter is_fallback List.length]. lia.
    + rewrite invokes_after_backoff. exact He.
    + apply Z.eqb_eq. lia.
    + rewrite fallbacks_after_backoff. exact Hlocal.
  - rewrite backoff_sleeps. reflexivity.
Qed.

(** C3, as the code has it.  A failure that carries no rate-limit signal,
    coming after [failed] rate-limited attempts: on the last attempt the
    local model is asked, with [max_length=100], and its output is
    returned; on an earlier attempt the exception is raised again to the
    caller and the local model is not asked. *)
Theorem other_failure (N failed : nat) (tr : trace) (e : exn) :
  (failed < N)%nat ->
  (forall k, (k < failed)%nat ->
     exists e',
       hosted_model env (count is_invoke tr + k) template variables
       = Raises e'
       /\ rate_limited e' = true) ->
  hosted_model env (count is_invoke tr + failed) template variables
  = Raises e ->
  rate_limited e = false ->
  let run :=
    process_with_retry env (invoke env template) variables (Z.of_nat N) tr in
  let retried :=
    backoff env template variables 0 failed (count is_random tr) in
  ((failed < N - 1)%nat ->
     run = (Raises e, tr ++ retried ++ [Invoke template variables])
     /\ count is_fallback (snd run) = count is_fallback tr)
  /\ (failed = (N - 1)%nat ->
      forall g gs,
        fallback_model env (count is_fallback tr) variables 100
        = Returns (g :: gs) ->
        run = (Returns (Some (generated_text g)),
               tr ++ retried
                  ++ [ Invoke template variables;
                       Warning "API limit reached. Falling back to local model.";
                       Fallback variables 100 ])).
Proof.
  intros Hlt Hfail He Hrate run retried.
  assert (Hrun : run
                 = retry_loop env (invoke env template) variables (Z.of_nat N)
                     (Z.of_nat failed
                        :: map Z.of_nat (seq (S failed) (N - S failed)))
                     (tr ++ retried)).
  { apply policy_after_failures; assumption. }
  subst retried. split.
  - intros Hearly. rewrite Hrun.
    rewrite (attempt_reraises env template variables (Z.of_nat N) _ _ _ e).
    + rewrite <- app_assoc. split; [reflexivity | ].
      cbn [snd]. rewrite app_assoc, count_app, fallbacks_after_backoff.
      apply Nat.add_0_r.
    + rewrite invokes_after_backoff. exact He.
    + exact Hrate.
    + apply Z.eqb_neq. lia.
  - intros Hlast g gs Hlocal. rewrite Hrun.
    rewrite (attempt_falls_back env template variables (Z.of_nat N)
               _ _ _ e g gs).
    + rewrite <- app_assoc. reflexivity.
    + rewrite invokes_after_backoff. exact He.
    + apply Z.eqb_eq. lia.
    + rewrite fallbacks_after_backoff. exact Hlocal.
Qed.

End PolicyRuns.

Section Summary.
Variable env : environment.

#[local] Notation "'per_chunk' chunk" :=
  (under_policy env summary_prompt [("doc_chunk", chunk)])
  (at level 10, chunk at level 9).

(** The loop that appends to [summaries] is a map over the chunks. *)
Lemma summarize_chunks_map_m (document_chunks : list string) :
  forall (summaries : list (option string)) (tr : trace),
    summarize_chunks env document_chunks summaries tr
    = bind (map_m (fun chunk => per_chunk chunk) document_chunks)
        (fun more => ret (summaries ++ more)) tr.
Proof.
  induction document_chunks as [ | chunk rest IH]; intros summaries tr.
  - cbn. rewrite app_nil_r. reflexivity.
  - cbn [summarize_chunks map_m]. unfold bind, under_policy.
    destruct (process_with_retry env (invoke env summary_prompt)
                [("doc_chunk", chunk)] 3 tr) as [[summary | e] tr1];
      [ | reflexivity].
    rewrite IH. unfold bind, under_policy.
    destruct (map_m _ rest tr1) as [[more | e] tr2]; [ | reflexivity].
    unfold ret. rewrite <- app_assoc. reflexivity.
Qed.

(** The policy around a call that the hosted model answers. *)
Lemma under_policy_returns (template : string) (variables : dict)
  (tr : trace) (v : string) :
  hosted_model env (count is_invoke tr) template variables = Returns v ->
  under_policy env template variables tr
  = (Returns (Some v), tr ++ [Invoke template variables]).
Proof.
  intros Hv. unfold under_policy, process_with_retry.
  change (range 3) with [0%Z; 1%Z; 2%Z].
  apply attempt_returns. exact Hv.
Qed.

Lemma all_strings_some (items : list string) :
  all_strings (map Some items) = Some items.
Proof.
  induction items as [ | s rest IH]; [reflexivity | ].
  cbn [map all_strings]. rewrite IH. reflexivity.
Qed.

(** The chunk loop when the hosted model answers every call. *)
Lemma summarize_chunks_answered (document_chunks : list string) :
  forall (answers : list string) (summaries : list (option string))
         (tr : trace),
    List.length answers = List.length document_chunks ->
    (forall i chunk,
        nth_error document_chunks i = Some chunk ->
        hosted_model env (count is_invoke tr + i) summary_prompt
          [("doc_chunk", chunk)]
        = Returns (nth i answers "")) ->
    summarize_chunks env document_chunks summaries tr
    = (Returns (summaries ++ map Some answers),
       tr ++ map (fun chunk => Invoke summary_prompt [("doc_chunk", chunk)])
               document_chunks).
Proof.
  induction document_chunks as [ | chunk rest IH];
    intros [ | answer answers] summaries tr Hlen Hans;
    try discriminate Hlen.
  - cbn. rewrite !app_nil_r. reflexivity.
  - cbn [summarize_chunks]. unfold bind at 1.
    fold (under_policy env summary_prompt [("doc_chunk", chunk)] tr).
    rewrite (under_policy_returns _ _ _ answer).
    + rewrite (IH answers).
      * cbn [map]. rewrite <- !app_assoc. reflexivity.
      * cbn in Hlen. lia.
      * intros i c Hc. rewrite count_app.
        cbn [count filter is_invoke List.length].
        replace (count is_invoke tr + 1 + i)%nat
          with (count is_invoke tr + S i)%nat by lia.
        apply (Hans (S i) c). exact Hc.
    + specialize (Hans O chunk eq_refl). rewrite Nat.add_0_r in Hans.
      exact Hans.
Qed.

(** C9.  The summary is the specification's: the wrapped per-chunk prompt
    once for each chunk, in the order of the list and on that chunk
    alone; the summaries joined by a space in the same order; the wrapped
    second prompt once, on the joined text, whose result is returned.
    When the hosted model answers every call, it is called once per chunk
    in order and once more for the final summary. *)
Theorem summary_orchestration (document_chunks : list string) (tr : trace) :
  generate_document_summary env document_chunks tr
  = summary_by_specification env document_chunks tr
  /\ forall (answers : list string) (final : string),
      List.length answers = List.length document_chunks ->
      (forall i chunk,
          nth_error document_chunks i = Some chunk ->
          hosted_model env (count is_invoke tr + i) summary_prompt
            [("doc_chunk", chunk)]
          = Returns (nth i answers "")) ->
      hosted_model env (count is_invoke tr + List.length document_chunks)
        final_summary_prompt
        [("combined_summary", join_strings " " answers)]
      = Returns final ->
      generate_document_summary env document_chunks tr
      = (Returns (Some final),
         tr ++ map (fun chunk => Invoke summary_prompt [("doc_chunk", chunk)])
                 document_chunks
            ++ [ Invoke final_summary_prompt
                   [("combined_summary", join_strings " " answers)] ]).
Proof.
  split.
  - unfold generate_document_summary, summary_by_specification.
    unfold bind at 1 3. rewrite summarize_chunks_map_m. unfold bind at 1.
    destruct (map_m _ document_chunks tr) as [[more | e] tr1];
      reflexivity.
  - intros answers final Hlen Hans Hfinal.
    unfold generate_document_summary. unfold bind at 1.
    rewrite (summarize_chunks_answered document_chunks answers [] tr Hlen Hans).
    cbn [app]. unfold bind at 1, str_join.
    rewrite all_strings_some. unfold ret.
    fold (under_policy env final_summary_prompt
            [("combined_summary", join_strings " " answers)]).
    rewrite (under_policy_returns _ _ _ final).
    + rewrite <- app_assoc. reflexivity.
    + rewrite count_app.
      replace (count is_invoke (map _ document_chunks))
        with (List.length document_chunks); [exact Hfinal | ].
      clear. induction document_chunks as [ | c rest IH];
        [reflexivity | ].
      cbn [map List.length]. rewrite IH. reflexivity.
Qed.

End Summary.

Section Upload.
Variable env : environment.

(** The upload always ends in its [except] branch: on the failure of
    [storage.bucket()] if it fails, on the [NameError] otherwise. *)
Lemma upload_run (user_id : string) (file : uploaded_file) (tr : trace) :
  exists message,
    upload_file_to_firebase env user_id file tr
    = (Returns None, tr ++ [Storage Bucket; Error message])
    /\ forall bucket,
        storage_service env (count is_storage tr) Bucket = Returns bucket ->
        message = "Error uploading file: name 'datetime' is not defined".
Proof.
  unfold upload_file_to_firebase, try_except, storage.
  unfold bind at 1.
  destruct (storage_service env (count is_storage tr) Bucket) as [b | e].
  - eexists. cbn. rewrite <- app_assoc. split; reflexivity.
  - eexists. cbn. rewrite <- app_assoc. split; [reflexivity | discriminate].
Qed.

(** C10.  [datetime] is not a name of the module, so the upload raises
    [NameError] inside its [try] as soon as it has its bucket, reports the
    error and returns [None]: nothing is uploaded, and the document stored
    for the file has no URL. *)
Theorem upload_returns_none (user_id : string) (file : uploaded_file)
  (tr : trace) :
  existsb (String.eqb "datetime") module_globals = false
  /\ fst (upload_file_to_firebase env user_id file tr) = Returns None
  /\ count is_upload (snd (upload_file_to_firebase env user_id file tr))
     = count is_upload tr
  /\ (forall bucket,
         storage_service env (count is_storage tr) Bucket = Returns bucket ->
         snd (upload_file_to_firebase env user_id file tr)
         = tr ++ [ Storage Bucket;
                   Error "Error uploading file: name 'datetime' is not defined" ])
  /\ forall info tr',
      process_uploaded_file env user_id file tr = (Returns info, tr') ->
      file_url info = None /\ documents tr' = documents tr ++ [info].
Proof.
  destruct (upload_run user_id file tr) as [message [Hrun Hname]].
  split; [reflexivity | ].
  rewrite Hrun. cbn [fst snd].
  split; [reflexivity | split; [ | split]].
  - rewrite count_app. cbn. apply Nat.add_0_r.
  - intros bucket Hbucket. rewrite (Hname bucket Hbucket). reflexivity.
  - intros info tr'. unfold process_uploaded_file. unfold bind at 1.
    rewrite Hrun. unfold bind, lift, add_document, ret.
    destruct (extract_text_from_file env file) as [text | e];
      [ | discriminate].
    destruct (generate_thumbnail env file) as [thumbnail | e];
      [ | discriminate].
    destruct (firestore_add env _ _) as [accepted | e]; [ | discriminate].
    intros H. injection H as <- <-. split; [reflexivity | ].
    rewrite !documents_app. cbn. rewrite app_nil_r. reflexivity.
Qed.

End Upload.

(** *** Runs against given services *)

Lemma rate_limit_retries_witness :
  process_with_retry third_time_lucky (invoke third_time_lucky "T")
    [("doc_chunk", "text")] 3 []
  = (Returns (Some "a summary"),
     [ Invoke "T" [("doc_chunk", "text")]; Random; Sleep 1.25;
       Invoke "T" [("doc_chunk", "text")]; Random; Sleep 2.25;
       Invoke "T" [("doc_chunk", "text")] ]).
Proof.
  refine (proj1 (proj1 (rate_limit_retries third_time_lucky "T"
                          [("doc_chunk", "text")] 3 [] _ _)
                   "a summary" eq_refl)).
  - lia.
  - intros [ | [ | k]] Hk;
      [exists quota_error; split; reflexivity
      | exists quota_error; split; reflexivity
      | exfalso; cbn in Hk; lia].
Defined.

(** C3, as the claim has it, fails: with three attempts allowed and the
    hosted model answering the first with a server error, the exception
    reaches the caller and the local model is never asked. *)
Lemma other_failure_on_first_attempt :
  rate_limited server_error = false
  /\ process_with_retry server_down (invoke server_down "T")
       [("doc_chunk", "text")] 3 []
     = (Raises server_error, [Invoke "T" [("doc_chunk", "text")]])
  /\ fst (process_with_retry server_down (invoke server_down "T")
            [("doc_chunk", "text")] 3 [])
     <> Returns (Some "local text").
Proof.
  split; [reflexivity | split; [reflexivity | ]].
  cbn. discriminate.
Qed.

Lemma other_failure_witness :
  process_with_retry server_down (invoke server_down "T")
    [("doc_chunk", "text")] 1 []
  = (Returns (Some "local text"),
     [ Invoke "T" [("doc_chunk", "text")];
       Warning "API limit reached. Falling back to local model.";
       Fallback [("doc_chunk", "text")] 100 ]).
Proof.
  refine (proj2 (other_failure server_down "T" [("doc_chunk", "text")]
                   1 0 [] server_error _ _ eq_refl eq_refl)
            eq_refl {| generated_text := "local text" |} [] eq_refl).
  - lia.
  - intros k Hk. exfalso. lia.
Defined.

Lemma summary_orchestration_witness :
  generate_document_summary answering ["chunk one"; "chunk two"] []
  = (Returns (Some "both"),
     [ Invoke summary_prompt [("doc_chunk", "chunk one")];
       Invoke summary_prompt [("doc_chunk", "chunk two")];
       Invoke final_summary_prompt [("combined_summary", "first second")] ]).
Proof.
  refine (proj2 (summary_orchestration answering
                   ["chunk one"; "chunk two"] [])
            ["first"; "second"] "both" eq_refl _ eq_refl).
  intros [ | [ | i]] chunk Hc; [reflexivity | reflexivity | ].
  destruct i; discriminate Hc.
Defined.

Lemma upload_returns_none_witness :
  exists info tr',
    process_uploaded_file answering "u1"
      {| file_name := "notes.txt";
         file_type := "text/plain";
         file_value := "some notes" |} []
    = (Returns info, tr')
    /\ file_url info = None
    /\ documents tr' = [info].
Proof.
  eexists. eexists. split; [vm_compute; reflexivity | ].
  apply (proj2 (proj2 (proj2 (proj2
           (upload_returns_none answering "u1"
              {| file_name := "notes.txt";
                 file_type := "text/plain";
                 file_value := "some notes" |} []))))).
  vm_compute. reflexivity.
Defined.

End DocumentRSpec.

(** ** More on the retry policy, the questions and the uploads *)

Module DocumentRRuns.
Import DocumentR DocumentRSpec.
#[local] Open Scope string_scope.
#[local] Open Scope list_scope.

Lemma sleeps_app (tr tr' : trace) : sleeps (tr ++ tr') = sleeps tr ++ sleeps tr'.
Proof.
  induction tr as [ | ev tr IH]; [reflexivity | ].
  destruct ev; cbn [app sleeps]; rewrite IH; reflexivity.
Qed.

(** *** The test for a rate limit *)

Lemma prefix_app (needle haystack : string) :
  String.prefix needle haystack = true
  <-> exists rest, haystack = (needle ++ rest)%string.
Proof.
  revert haystack.
  induction needle as [ | a needle IH]; intros haystack.
  - split; [intros _; exists haystack; reflexivity | ].
    intros _. destruct haystack; reflexivity.
  - destruct haystack as [ | b haystack]; cbn [String.prefix].
    + split; [discriminate | intros [rest H]; discriminate H].
    + destruct (Ascii.ascii_dec a b) as [-> | Hne].
      * rewrite IH. split; intros [rest H]; exists rest.
        -- cbn. rewrite H. reflexivity.
        -- cbn in H. injection H as H. exact H.
      * split; [discriminate | ].
        intros [rest H]. cbn in H. injection H as H _. congruence.
Qed.

Lemma contains_app (needle haystack : string) :
  contains needle haystack = true
  <-> exists before rest, haystack = (before ++ needle ++ rest)%string.
Proof.
  induction haystack as [ | b haystack IH]; cbn [contains].
  - rewrite Bool.orb_false_r, prefix_app. split.
    + intros [rest H]. exists "", rest. exact H.
    + intros [before [rest H]]. destruct before as [ | c before];
        [exists rest; exact H | discriminate H].
  - rewrite Bool.orb_true_iff, prefix_app, IH. split.
    + intros [[rest H] | [before [rest H]]].
      * exists "", rest. exact H.
      * exists (String b before), rest. cbn. rewrite H. reflexivity.
    + intros [before [rest H]]. destruct before as [ | c before].
      * left. exists rest. exact H.
      * right. cbn in H. injection H as _ H. exists before, rest. exact H.
Qed.

(** X5.  A failure counts as a rate limit exactly when the text of the
    exception has [429] somewhere in it, whatever stands before and
    after. *)
Theorem rate_limited_anywhere (e : exn) :
  rate_limited e = true
  <-> exists before rest, exn_text e = (before ++ "429" ++ rest)%string.
Proof. unfold rate_limited. apply contains_app. Qed.

(** *** The effort of a run of the policy *)

Section Effort.
Variable env : environment.
Variable template : string.
Variable variables : dict.

Lemma retry_loop_effort (remaining : nat) :
  forall (attempt : nat) (tr : trace),
  exists result evs,
    retry_loop env (invoke env template) variables
      (Z.of_nat (attempt + remaining))
      (map Z.of_nat (seq attempt remaining)) tr
    = (result, tr ++ evs)
    /\ modest remaining evs
    /\ ((1 <= remaining)%nat -> result <> Returns None).
Proof.
  induction remaining as [ | remaining IH]; intros attempt tr.
  - exists (Returns None), []. cbn. rewrite app_nil_r.
    unfold modest. cbn. repeat split; lia.
  - cbn [seq map retry_loop].
    unfold try_except, bind at 1, invoke at 1.
    destruct (hosted_model env (count is_invoke tr) template variables)
      as [v | e].
    + exists (Returns (Some v)), [Invoke template variables].
      split; [reflexivity | split; [ | intros _; discriminate]].
      unfold modest. cbn. repeat split; lia.
    + destruct (rate_limited e
                && (Z.of_nat attempt <? Z.of_nat (attempt + S remaining) - 1)%Z)
        eqn:Hretry.
      * apply Bool.andb_true_iff in Hretry. destruct Hretry as [_ Hlt].
        apply Z.ltb_lt in Hlt.
        unfold bind at 1, random at 1. unfold bind at 1, time_sleep, emit.
        replace (attempt + S remaining)%nat with (S attempt + remaining)%nat
          by lia.
        match goal with
        | |- context [retry_loop _ _ _ _ _ ?t] =>
            destruct (IH (S attempt) t)
              as [result [evs [Hevs [Hmod Hnone]]]]
        end.
        exists result. eexists. rewrite Hevs, <- !app_assoc.
        split; [reflexivity | split].
        -- destruct Hmod as [Hi [Hf [Hr [Hs [Hst Hd]]]]].
           unfold modest. cbn [app].
           change (count is_invoke (Invoke template variables :: Random :: ?s :: evs))
             with (S (count is_invoke evs)).
           change (count is_fallback (Invoke template variables :: Random :: ?s :: evs))
             with (count is_fallback evs).
           change (count is_random (Invoke template variables :: Random :: ?s :: evs))
             with (S (count is_random evs)).
           change (count is_storage (Invoke template variables :: Random :: ?s :: evs))
             with (count is_storage evs).
           cbn [sleeps documents List.length].
           repeat split; try assumption; lia.
        -- intros _. apply Hnone. lia.
      * destruct (Z.of_nat attempt =? Z.of_nat (attempt + S remaining) - 1)%Z.
        -- unfold bind, st_warning, emit, call_fallback, lift, ret.
           match goal with
           | |- context [fallback_model env ?n variables 100] =>
               destruct (fallback_model env n variables 100) as [[ | g gs] | e']
           end; cbn [first_generated_text];
             eexists; eexists; rewrite <- !app_assoc;
             (split; [reflexivity | split; [ | intros _; discriminate]]);
             unfold modest; cbn; repeat split; lia.
        -- exists (Raises e), [Invoke template variables].
           split; [reflexivity | split; [ | intros _; discriminate]].
           unfold modest. cbn. repeat split; lia.
Qed.

(** X6.  A run of the policy only adds to the trace, and adds little: at
    most [max_retries] calls of the hosted model, at most one call of the
    local model, one random number for each pause and at most
    [max_retries - 1] pauses; it touches neither the storage nor the
    documents. *)
Theorem policy_effort (max_retries : Z) (tr : trace) :
  exists evs,
    snd (process_with_retry env (invoke env template) variables max_retries tr)
    = tr ++ evs
    /\ (count is_invoke evs <= Z.to_nat max_retries)%nat
    /\ (count is_fallback evs <= 1)%nat
    /\ count is_random evs = List.length (sleeps evs)
    /\ (List.length (sleeps evs) <= Z.to_nat max_retries - 1)%nat
    /\ count is_storage evs = O
    /\ documents evs = [].
Proof.
  unfold process_with_retry, range.
  destruct (Z.le_gt_cases max_retries 0) as [Hle | Hgt].
  - replace (Z.to_nat max_retries) with O by lia.
    exists []. cbn. rewrite app_nil_r. repeat split; lia.
  - destruct (retry_loop_effort (Z.to_nat max_retries) O tr)
      as [result [evs [Hevs [Hmod _]]]].
    cbn [plus] in Hevs. rewrite Z2Nat.id in Hevs by lia.
    exists evs. rewrite Hevs. split; [reflexivity | exact Hmod].
Qed.

(** X7.  The policy returns [None] exactly when no attempt is allowed, and
    then it calls nothing: with one attempt or more it returns a text or
    raises. *)
Theorem policy_none (max_retries : Z) (tr : trace) :
  (fst (process_with_retry env (invoke env template) variables max_retries tr)
   = Returns None
   <-> (max_retries <= 0)%Z)
  /\ ((max_retries <= 0)%Z ->
      process_with_retry env (invoke env template) variables max_retries tr
      = (Returns None, tr)).
Proof.
  assert (Hnone : (max_retries <= 0)%Z ->
                  process_with_retry env (invoke env template) variables
                    max_retries tr
                  = (Returns None, tr)).
  { intros Hle. unfold process_with_retry, range.
    replace (Z.to_nat max_retries) with O by lia. reflexivity. }
  split; [ | exact Hnone].
  split.
  - intros Hres. destruct (Z.le_gt_cases max_retries 0) as [Hle | Hgt];
      [exact Hle | exfalso].
    destruct (retry_loop_effort (Z.to_nat max_retries) O tr)
      as [result [evs [Hevs [_ Hsome]]]].
    cbn [plus] in Hevs. rewrite Z2Nat.id in Hevs by lia.
    unfold process_with_retry, range in Hres. rewrite Hevs in Hres.
    apply Hsome; [lia | exact Hres].
  - intros Hle. rewrite (Hnone Hle). reflexivity.
Qed.

End Effort.

Lemma policy_none_witness :
  process_with_retry third_time_lucky (invoke third_time_lucky "T")
    [("doc_chunk", "text")] 0 []
  = (Returns None, []).
Proof.
  refine (proj2 (policy_none third_time_lucky "T" [("doc_chunk", "text")]
                   0 []) _).
  lia.
Defined.

(** *** The last attempt *)

Section LastAttempt.
Variable env : environment.
Variable template : string.
Variable variables : dict.

Lemma attempt_fallback_outcome (max_retries attempt : Z) (rest : list Z)
  (tr : trace) (e : exn) :
  hosted_model env (count is_invoke tr) template variables = Raises e ->
  (attempt =? max_retries - 1)%Z = true ->
  retry_loop env (invoke env template) variables max_retries
    (attempt :: rest) tr
  = (fallback_outcome
       (fallback_model env (count is_fallback tr) variables 100),
     tr ++ [ Invoke template variables;
             Warning "API limit reached. Falling back to local model.";
             Fallback variables 100 ]).
Proof.
  intros He Hlast. cbn [retry_loop].
  unfold try_except, bind at 1, invoke at 1. rewrite He.
  apply Z.eqb_eq in Hlast.
  replace (attempt <? max_retries - 1)%Z with false
    by (symmetry; apply Z.ltb_ge; lia).
  rewrite Bool.andb_false_r.
  replace (attempt =? max_retries - 1)%Z with true
    by (symmetry; apply Z.eqb_eq; exact Hlast).
  unfold bind, st_warning, emit, call_fallback, lift, ret.
  rewrite !count_app. cbn [count filter is_fallback List.length].
  rewrite <- !plus_n_O.
  destruct (fallback_model env (count is_fallback tr) variables 100)
    as [[ | g gs] | e']; cbn [first_generated_text fallback_outcome];
    rewrite <- !app_assoc; reflexivity.
Qed.

(** X8.  When the attempts before the last are rate limited and the last
    one fails, for whatever reason, the outcome of the policy is the
    outcome of the local model: its first text if it generates one, its
    exception if it raises, an [IndexError] if it generates nothing. *)
Theorem last_attempt_outcome (N : nat) (tr : trace) (e : exn) :
  (1 <= N)%nat ->
  (forall k, (k < N - 1)%nat ->
     exists e',
       hosted_model env (count is_invoke tr + k) template variables
       = Raises e'
       /\ rate_limited e' = true) ->
  hosted_model env (count is_invoke tr + (N - 1)) template variables
  = Raises e ->
  process_with_retry env (invoke env template) variables (Z.of_nat N) tr
  = (fallback_outcome
       (fallback_model env (count is_fallback tr) variables 100),
     tr ++ backoff env template variables 0 (N - 1) (count is_random tr)
        ++ [ Invoke template variables;
             Warning "API limit reached. Falling back to local model.";
             Fallback variables 100 ]).
Proof.
  intros HN Hfail He.
  rewrite (policy_after_failures env template variables N (N - 1) tr)
    by (lia || exact Hfail).
  rewrite attempt_fallback_outcome with (e := e).
  - rewrite fallbacks_after_backoff, <- app_assoc. reflexivity.
  - rewrite invokes_after_backoff. exact He.
  - apply Z.eqb_eq. lia.
Qed.

End LastAttempt.

Lemma last_attempt_outcome_witness :
  process_with_retry nothing_generated (invoke nothing_generated "T")
    [("doc_chunk", "text")] 1 []
  = (Raises {| exn_class := "IndexError";
               exn_text := "list index out of range" |},
     [ Invoke "T" [("doc_chunk", "text")];
       Warning "API limit reached. Falling back to local model.";
       Fallback [("doc_chunk", "text")] 100 ]).
Proof.
  refine (last_attempt_outcome nothing_generated "T" [("doc_chunk", "text")]
            1 [] server_error _ _ eq_refl).
  - lia.
  - intros k Hk. exfalso. lia.
Defined.

(** *** Questions *)

Section Questions.
Variable env : environment.

Lemma invokes_of_map {A : Type} (request : A -> event) (items : list A) :
  (forall x, is_invoke (request x) = true) ->
  count is_invoke (map request items) = List.length items.
Proof.
  intros Hreq. induction items as [ | x rest IH]; [reflexivity | ].
  cbn [map]. unfold count in *. cbn [filter]. rewrite Hreq.
  cbn [List.length]. rewrite IH. reflexivity.
Qed.

(** The chunk loop of a question when the hosted model answers every
    call. *)
Lemma answer_chunks_answered (question : string) (doc_chunks : list string) :
  forall (replies : list string) (answers : list (option string))
         (tr : trace),
    List.length replies = List.length doc_chunks ->
    (forall i chunk,
        nth_error doc_chunks i = Some chunk ->
        hosted_model env (count is_invoke tr + i) question_template
          [("chunk", chunk); ("question", question)]
        = Returns (nth i replies "")) ->
    answer_chunks env question doc_chunks answers tr
    = (Returns (answers ++ map Some replies),
       tr ++ map (fun chunk =>
                    Invoke question_template
                      [("chunk", chunk); ("question", question)])
               doc_chunks).
Proof.
  induction doc_chunks as [ | chunk rest IH];
    intros [ | reply replies] answers tr Hlen Hans;
    try discriminate Hlen.
  - cbn. rewrite !app_nil_r. reflexivity.
  - cbn [answer_chunks]. unfold bind at 1.
    fold (under_policy env question_template
            [("chunk", chunk); ("question", question)] tr).
    rewrite (under_policy_returns _ _ _ _ reply).
    + rewrite (IH replies).
      * cbn [map]. rewrite <- !app_assoc. reflexivity.
      * cbn in Hlen. lia.
      * intros i c Hc. rewrite count_app.
        cbn [count filter is_invoke List.length].
        replace (count is_invoke tr + 1 + i)%nat
          with (count is_invoke tr + S i)%nat by lia.
        apply (Hans (S i) c). exact Hc.
    + specialize (Hans O chunk eq_refl). rewrite Nat.add_0_r in Hans.
      exact Hans.
Qed.

(** X9.  When the hosted model answers every call, a question is put once
    to each chunk, in the order of the chunks and with the same question
    each time; the answers are joined by a space in that order, and the
    combining prompt is called once on the joined text, whose reply is
    the answer returned. *)
Theorem question_orchestration (question : string)
  (doc_chunks replies : list string) (final : string) (tr : trace) :
  List.length replies = List.length doc_chunks ->
  (forall i chunk,
      nth_error doc_chunks i = Some chunk ->
      hosted_model env (count is_invoke tr + i) question_template
        [("chunk", chunk); ("question", question)]
      = Returns (nth i replies "")) ->
  hosted_model env (count is_invoke tr + List.length doc_chunks)
    combined_answer_prompt [("answers", join_strings " " replies)]
  = Returns final ->
  query_documents env question doc_chunks tr
  = (Returns (Some final),
     tr ++ map (fun chunk =>
                  Invoke question_template
                    [("chunk", chunk); ("question", question)])
             doc_chunks
        ++ [ Invoke combined_answer_prompt
               [("answers", join_strings " " replies)] ]).
Proof.
  intros Hlen Hans Hfinal.
  unfold query_documents. unfold bind at 1.
  rewrite (answer_chunks_answered question doc_chunks replies [] tr Hlen Hans).
  cbn [app]. unfold bind at 1, str_join.
  rewrite all_strings_some. unfold ret.
  fold (under_policy env combined_answer_prompt
          [("answers", join_strings " " replies)]).
  rewrite (under_policy_returns _ _ _ _ final).
  - rewrite <- app_assoc. reflexivity.
  - rewrite count_app, invokes_of_map by reflexivity. exact Hfinal.
Qed.

(** *** A summary that fails, and a summary without the hosted model *)

(** The chunk loop of the summary over chunks that are answered, with more
    chunks to come. *)
Lemma summarize_chunks_through (before : list string) :
  forall (rest answers : list string) (summaries : list (option string))
         (tr : trace),
    List.length answers = List.length before ->
    (forall i chunk,
        nth_error before i = Some chunk ->
        hosted_model env (count is_invoke tr + i) summary_prompt
          [("doc_chunk", chunk)]
        = Returns (nth i answers "")) ->
    summarize_chunks env (before ++ rest) summaries tr
    = summarize_chunks env rest (summaries ++ map Some answers)
        (tr ++ map (fun chunk => Invoke summary_prompt [("doc_chunk", chunk)])
               before).
Proof.
  induction before as [ | chunk before IH];
    intros rest [ | answer answers] summaries tr Hlen Hans;
    try discriminate Hlen.
  - cbn. rewrite !app_nil_r. reflexivity.
  - cbn [app summarize_chunks]. unfold bind at 1.
    fold (under_policy env summary_prompt [("doc_chunk", chunk)] tr).
    rewrite (under_policy_returns _ _ _ _ answer).
    + rewrite (IH rest answers).
      * cbn [map]. rewrite <- !app_assoc. reflexivity.
      * cbn in Hlen. lia.
      * intros i c Hc. rewrite count_app.
        cbn [count filter is_invoke List.length].
        replace (count is_invoke tr + 1 + i)%nat
          with (count is_invoke tr + S i)%nat by lia.
        apply (Hans (S i) c). exact Hc.
    + specialize (Hans O chunk eq_refl). rewrite Nat.add_0_r in Hans.
      exact Hans.
Qed.

(** X10.  When a chunk meets a failure that is not a rate limit, after the
    chunks before it have been answered, the summary raises that failure:
    the chunks after it are never sent and no final summary is asked
    for. *)
Theorem summary_stops_at_failure (before after answers : list string)
  (chunk : string) (e : exn) (tr : trace) :
  List.length answers = List.length before ->
  (forall i c,
      nth_error before i = Some c ->
      hosted_model env (count is_invoke tr + i) summary_prompt
        [("doc_chunk", c)]
      = Returns (nth i answers "")) ->
  hosted_model env (count is_invoke tr + List.length before) summary_prompt
    [("doc_chunk", chunk)]
  = Raises e ->
  rate_limited e = false ->
  generate_document_summary env (before ++ chunk :: after) tr
  = (Raises e,
     tr ++ map (fun c => Invoke summary_prompt [("doc_chunk", c)]) before
        ++ [Invoke summary_prompt [("doc_chunk", chunk)]]).
Proof.
  intros Hlen Hans He Hrate.
  unfold generate_document_summary. unfold bind at 1.
  rewrite (summarize_chunks_through before (chunk :: after) answers [] tr
             Hlen Hans).
  cbn [summarize_chunks]. unfold bind at 1.
  unfold process_with_retry at 1. change (range 3) with [0%Z; 1%Z; 2%Z].
  rewrite attempt_reraises with (e := e).
  - rewrite <- app_assoc. reflexivity.
  - rewrite count_app, invokes_of_map by reflexivity. exact He.
  - exact Hrate.
  - reflexivity.
Qed.

End Questions.

Lemma question_orchestration_witness :
  query_documents answering "what?" ["chunk one"; "chunk two"] []
  = (Returns (Some "both"),
     [ Invoke question_template
         [("chunk", "chunk one"); ("question", "what?")];
       Invoke question_template
         [("chunk", "chunk two"); ("question", "what?")];
       Invoke combined_answer_prompt [("answers", "first second")] ]).
Proof.
  refine (question_orchestration answering "what?"
            ["chunk one"; "chunk two"] ["first"; "second"] "both" []
            eq_refl _ eq_refl).
  intros [ | [ | i]] chunk Hc; [reflexivity | reflexivity | ].
  destruct i; discriminate Hc.
Defined.

Lemma summary_stops_at_failure_witness :
  generate_document_summary failing_on_third
    (["one"; "two"] ++ "three" :: ["four"]) []
  = (Raises server_error,
     [ Invoke summary_prompt [("doc_chunk", "one")];
       Invoke summary_prompt [("doc_chunk", "two")];
       Invoke summary_prompt [("doc_chunk", "three")] ]).
Proof.
  refine (summary_stops_at_failure failing_on_third
            ["one"; "two"] ["four"] ["first"; "second"] "three"
            server_error [] eq_refl _ eq_refl eq_refl).
  intros [ | [ | i]] c Hc; [reflexivity | reflexivity | ].
  destruct i; discriminate Hc.
Defined.

Section WithoutHostedModel.
Variable env : environment.
Hypothesis always_limited :
  forall n template variables,
  exists e,
    hosted_model env n template variables = Raises e
    /\ rate_limited e = true.
Hypothesis always_generates :
  forall n args max_length,
  exists g gs, fallback_model env n args max_length = Returns (g :: gs).

Lemma under_policy_degraded (template : string) (variables : dict)
  (tr : trace) :
  exists g gs tr',
    fallback_model env (count is_fallback tr) variables 100
    = Returns (g :: gs)
    /\ under_policy env template variables tr
       = (Returns (Some (generated_text g)), tr')
    /\ degraded_by 1 tr tr'.
Proof.
  destruct (always_generates (count is_fallback tr) variables 100)
    as [g [gs Hlocal]].
  destruct (always_limited (count is_invoke tr + 2) template variables)
    as [e [He _]].
  exists g, gs. eexists. split; [exact Hlocal | ].
  unfold under_policy.
  change (process_with_retry env (invoke env template) variables 3 tr)
    with (process_with_retry env (invoke env template) variables
            (Z.of_nat 3) tr).
  rewrite (policy_after_failures env template variables 3 2 tr);
    [ | lia | intros k _; apply always_limited].
  rewrite attempt_falls_back with (e := e) (g := g) (gs := gs).
  - split; [reflexivity | ]. unfold degraded_by.
    rewrite !count_app, !sleeps_app, !length_app.
    rewrite backoff_invokes, backoff_fallbacks, backoff_sleeps.
    rewrite length_map, length_seq. cbn. repeat split; lia.
  - rewrite invokes_after_backoff. exact He.
  - reflexivity.
  - rewrite fallbacks_after_backoff. exact Hlocal.
Qed.

Lemma summarize_chunks_degraded (document_chunks : list string) :
  forall (texts : list string) (tr : trace),
  exists more tr',
    summarize_chunks env document_chunks (map Some texts) tr
    = (Returns (map Some (texts ++ more)), tr')
    /\ degraded_by (List.length document_chunks) tr tr'.
Proof.
  induction document_chunks as [ | chunk rest IH]; intros texts tr.
  - exists [], tr. cbn. rewrite app_nil_r.
    split; [reflexivity | ]. unfold degraded_by. repeat split; lia.
  - destruct (under_policy_degraded summary_prompt [("doc_chunk", chunk)] tr)
      as [g [gs [tr1 [_ [Hrun Hd1]]]]].
    cbn [summarize_chunks]. unfold bind at 1.
    fold (under_policy env summary_prompt [("doc_chunk", chunk)] tr).
    rewrite Hrun.
    change (map Some texts ++ [Some (generated_text g)])
      with (map Some texts ++ map Some [generated_text g]).
    rewrite <- map_app.
    destruct (IH (texts ++ [generated_text g]) tr1)
      as [more [tr' [Hrest Hd]]].
    exists (generated_text g :: more), tr'. rewrite Hrest.
    rewrite <- app_assoc. split; [reflexivity | ].
    unfold degraded_by in *. cbn [List.length].
    destruct Hd1 as [H1 [H2 H3]], Hd as [H4 [H5 H6]].
    repeat split; lia.
Qed.

(** X11.  When every call of the hosted model is rate limited and the
    local model always generates a text, the summary is still produced,
    by the local model alone: for [n] chunks the hosted model is tried
    [3 * (n + 1)] times, with [2 * (n + 1)] pauses, the local model is
    called [n + 1] times, and the summary returned is the first text of
    its last call. *)
Theorem summary_without_hosted_model (document_chunks : list string)
  (tr : trace) :
  exists combined g gs tr',
    generate_document_summary env document_chunks tr
    = (Returns (Some (generated_text g)), tr')
    /\ fallback_model env
         (count is_fallback tr + List.length document_chunks)
         [("combined_summary", combined)] 100
       = Returns (g :: gs)
    /\ count is_invoke tr'
       = (count is_invoke tr + 3 * (List.length document_chunks + 1))%nat
    /\ count is_fallback tr'
       = (count is_fallback tr + (List.length document_chunks + 1))%nat
    /\ List.length (sleeps tr')
       = (List.length (sleeps tr)
          + 2 * (List.length document_chunks + 1))%nat.
Proof.
  destruct (summarize_chunks_degraded document_chunks [] tr)
    as [more [tr1 [Hloop Hd1]]].
  cbn [map app] in Hloop.
  destruct (under_policy_degraded final_summary_prompt
              [("combined_summary", join_strings " " more)] tr1)
    as [g [gs [tr' [Hlocal [Hrun Hd]]]]].
  exists (join_strings " " more), g, gs, tr'.
  unfold generate_document_summary. unfold bind at 1. rewrite Hloop.
  unfold bind at 1, str_join. rewrite all_strings_some. unfold ret.
  fold (under_policy env final_summary_prompt
          [("combined_summary", join_strings " " more)]).
  rewrite Hrun.
  unfold degraded_by in *.
  destruct Hd1 as [H1 [H2 H3]], Hd as [H4 [H5 H6]].
  split; [reflexivity | split].
  - rewrite <- H2. exact Hlocal.
  - repeat split; lia.
Qed.

End WithoutHostedModel.

Lemma summary_without_hosted_model_witness :
  exists tr',
    generate_document_summary out_of_quota ["one"; "two"] []
    = (Returns (Some "local text"), tr')
    /\ count is_invoke tr' = 9%nat
    /\ count is_fallback tr' = 3%nat
    /\ sleeps tr' = [1.25; 2.25; 1.25; 2.25; 1.25; 2.25]%float.
Proof.
  destruct (summary_without_hosted_model out_of_quota) with
    (document_chunks := ["one"; "two"]) (tr := @nil event)
    as [combined [g [gs [tr' [Hrun _]]]]].
  - intros n template variables. exists quota_error.
    split; reflexivity.
  - intros n args max_length. eexists. eexists. reflexivity.
  - exists tr'. vm_compute in Hrun. injection Hrun as Hg Htr.
    subst tr'. vm_compute. rewrite Hg. repeat split; reflexivity.
Defined.

(** *** The files of an upload *)

Section Uploads.
Variable env : environment.
Variable user_id : string.

Lemma adds_before_request (tr : trace) (message : string) :
  count is_add (tr ++ [Storage Bucket; Error message]) = count is_add tr.
Proof. rewrite count_app. cbn. apply Nat.add_0_r. Qed.

Lemma readable_file_stored (file : uploaded_file) (tr : trace) :
  readable env file ->
  firestore_add env (count is_add tr) (stored_document env file)
  = Returns tt ->
  exists message,
    process_uploaded_file env user_id file tr
    = (Returns (stored_document env file),
       tr ++ [ Storage Bucket; Error message;
               AddDocument (stored_document env file) ]).
Proof.
  intros [[text Htext] [thumbnail Hthumb]] Hadd.
  destruct (upload_run env user_id file tr) as [message [Hrun _]].
  exists message. unfold process_uploaded_file. unfold bind at 1.
  rewrite Hrun. unfold bind, lift, add_document, ret.
  unfold stored_document, extracted_text in *.
  rewrite Htext in *. rewrite Hthumb.
  rewrite adds_before_request, Hadd, <- app_assoc. reflexivity.
Qed.

Lemma failing_file_raises (file : uploaded_file) (tr : trace) (e : exn) :
  fails env (count is_add tr) file e ->
  exists evs,
    process_uploaded_file env user_id file tr = (Raises e, tr ++ evs)
    /\ documents evs = []
    /\ count is_storage evs = 1%nat.
Proof.
  intros Hbad.
  destruct (upload_run env user_id file tr) as [message [Hrun _]].
  unfold process_uploaded_file. unfold bind at 1.
  rewrite Hrun. unfold bind, lift, add_document, ret.
  destruct Hbad as [Htext | [[text [Htext Hthumb]] | [Hread Hadd]]].
  - rewrite Htext. eexists. repeat split; reflexivity.
  - rewrite Htext, Hthumb. eexists. repeat split; reflexivity.
  - destruct Hread as [[text Htext] [thumbnail Hthumb]].
    unfold stored_document, extracted_text in Hadd.
    rewrite Htext in *. rewrite Hthumb.
    rewrite adds_before_request, Hadd, <- app_assoc.
    eexists. repeat split; reflexivity.
Qed.

Lemma upload_loop_through (before : list uploaded_file) :
  forall (rest : list uploaded_file) (combined : list string) (tr : trace),
    (forall file, In file before -> readable env file) ->
    accepted env (count is_add tr) before ->
    exists evs,
      upload_loop env user_id (before ++ rest) combined tr
      = upload_loop env user_id rest (combined ++ chunks_of env before)
          (tr ++ evs)
      /\ documents evs = map (stored_document env) before
      /\ count is_upload evs = O
      /\ count is_storage evs = List.length before
      /\ count is_add evs = List.length before.
Proof.
  induction before as [ | file before IH];
    intros rest combined tr Hall Hacc.
  - exists []. cbn. rewrite !app_nil_r. repeat split; reflexivity.
  - assert (Hadd : firestore_add env (count is_add tr)
                     (stored_document env file) = Returns tt).
    { rewrite <- (Nat.add_0_r (count is_add tr)).
      apply (Hacc O file). reflexivity. }
    destruct (readable_file_stored file tr
                (Hall file (or_introl eq_refl)) Hadd)
      as [message Hfile].
    cbn [app upload_loop]. unfold bind at 1. rewrite Hfile.
    destruct (IH rest
                (combined ++ chunk_text env
                               (text_content (stored_document env file)))
                (tr ++ [ Storage Bucket; Error message;
                         AddDocument (stored_document env file) ]))
      as [evs [Hloop [Hdocs [Hup [Hst Hadds]]]]].
    { intros f Hf. apply Hall. right. exact Hf. }
    { intros k f Hk. rewrite count_app. cbn [count filter is_add List.length].
      replace (count is_add tr + 1 + k)%nat
        with (count is_add tr + S k)%nat by lia.
      apply (Hacc (S k) f). exact Hk. }
    eexists. rewrite Hloop, <- !app_assoc. split; [reflexivity | ].
    cbn [app documents map List.length].
    change (count is_upload (Storage Bucket :: Error message :: AddDocument ?d :: evs))
      with (count is_upload evs).
    change (count is_storage (Storage Bucket :: Error message :: AddDocument ?d :: evs))
      with (S (count is_storage evs)).
    change (count is_add (Storage Bucket :: Error message :: AddDocument ?d :: evs))
      with (S (count is_add evs)).
    rewrite Hdocs, Hup, Hst, Hadds. repeat split; reflexivity.
Qed.

Lemma chunk_counts_add_up (files : list uploaded_file) :
  list_sum (map chunk_count (map (stored_document env) files))
  = List.length (chunks_of env files).
Proof.
  unfold chunks_of.
  induction files as [ | file files IH]; [reflexivity | ].
  cbn [map flat_map]. rewrite length_app, <- IH. reflexivity.
Qed.

(** X12.  When every file can be read and Firestore accepts the document
    of each, the upload stores one document for each file, in the order of
    the files and each without a URL; the texts of the session become the
    chunks of the files in that order (with no file chosen they stay as
    they were), and the chunk counts stored add up to their number. *)
Theorem uploads_stored (uploaded_files : list uploaded_file)
  (combined_document_text : list string) (tr : trace) :
  (forall file, In file uploaded_files -> readable env file) ->
  accepted env (count is_add tr) uploaded_files ->
  exists evs,
    upload_files env user_id uploaded_files combined_document_text tr
    = (Returns (match uploaded_files with
                | [] => combined_document_text
                | _ :: _ => chunks_of env uploaded_files
                end),
       tr ++ evs)
    /\ documents evs = map (stored_document env) uploaded_files
    /\ Forall (fun info => file_url info = None) (documents evs)
    /\ list_sum (map chunk_count (documents evs))
       = List.length (chunks_of env uploaded_files)
    /\ count is_upload evs = O.
Proof.
  intros Hall Hacc.
  destruct uploaded_files as [ | file files].
  - exists []. cbn. rewrite app_nil_r. repeat split; constructor.
  - destruct (upload_loop_through (file :: files) [] [] tr Hall Hacc)
      as [evs [Hloop [Hdocs [Hup _]]]].
    exists evs. unfold upload_files. rewrite app_nil_r in Hloop.
    rewrite Hloop. cbn [upload_loop app]. unfold ret.
    split; [reflexivity | ].
    rewrite Hdocs. split; [reflexivity | split; [ | split]].
    + apply Forall_forall. intros info Hin.
      apply in_map_iff in Hin. destruct Hin as [f [<- _]]. reflexivity.
    + apply chunk_counts_add_up.
    + exact Hup.
Qed.

(** X13.  When a round of the loop fails on a file (its text extraction or
    its thumbnail raises, or Firestore refuses its document), after files
    that could be read and whose documents Firestore accepted, the upload
    raises that failure: the documents of the files before it stay stored,
    the file itself and the files after it leave no document, and the files
    after it are not even attempted. *)
Theorem uploads_stop_at_failure (before after : list uploaded_file)
  (bad : uploaded_file) (e : exn) (combined_document_text : list string)
  (tr : trace) :
  (forall file, In file before -> readable env file) ->
  accepted env (count is_add tr) before ->
  fails env (count is_add tr + List.length before) bad e ->
  exists evs,
    upload_files env user_id (before ++ bad :: after) combined_document_text tr
    = (Raises e, tr ++ evs)
    /\ documents evs = map (stored_document env) before
    /\ count is_storage evs = S (List.length before).
Proof.
  intros Hall Hacc Hbad.
  destruct (upload_loop_through before (bad :: after) [] tr Hall Hacc)
    as [evs [Hloop [Hdocs [_ [Hst Hadds]]]]].
  destruct (failing_file_raises bad (tr ++ evs) e) as [evs' [Hfile [Hd Hs]]].
  { rewrite count_app, Hadds. exact Hbad. }
  exists (evs ++ evs').
  assert (Hrun : upload_files env user_id (before ++ bad :: after)
                   combined_document_text tr
                 = upload_loop env user_id (before ++ bad :: after) [] tr).
  { unfold upload_files. destruct before; reflexivity. }
  rewrite Hrun, Hloop. cbn [upload_loop]. unfold bind at 1.
  rewrite Hfile, <- app_assoc. split; [reflexivity | ].
  rewrite documents_app, count_app, Hdocs, Hst, Hd, Hs.
  rewrite app_nil_r. split; [reflexivity | lia].
Qed.

End Uploads.

Lemma uploads_stored_witness :
  exists evs,
    upload_files answering "u1"
      [ {| file_name := "a.txt"; file_type := "text/plain"; file_value := "alpha" |};
        {| file_name := "b.txt"; file_type := "text/plain"; file_value := "beta" |} ]
      ["old"] []
    = (Returns ["alpha"; "beta"], evs)
    /\ map filename (documents evs) = ["a.txt"; "b.txt"]
    /\ map file_url (documents evs) = [None; None].
Proof.
  destruct (uploads_stored answering "u1"
              [ {| file_name := "a.txt"; file_type := "text/plain"; file_value := "alpha" |};
                {| file_name := "b.txt"; file_type := "text/plain"; file_value := "beta" |} ]
              ["old"] [])
    as [evs [Hrun [Hdocs _]]].
  - intros file _. split; eexists; reflexivity.
  - intros k file _. reflexivity.
  - exists evs. split; [exact Hrun | ].
    rewrite Hdocs. split; reflexivity.
Defined.

Lemma uploads_stop_at_failure_witness :
  exists evs,
    upload_files firestore_refusing "u1"
      ([ {| file_name := "a.txt"; file_type := "text/plain"; file_value := "alpha" |} ]
       ++ {| file_name := "b.txt"; file_type := "text/plain"; file_value := "beta" |}
       :: [ {| file_name := "c.txt"; file_type := "text/plain"; file_value := "gamma" |} ])
      [] []
    = (Raises unavailable, evs)
    /\ map filename (documents evs) = ["a.txt"].
Proof.
  destruct (uploads_stop_at_failure firestore_refusing "u1"
              [ {| file_name := "a.txt"; file_type := "text/plain"; file_value := "alpha" |} ]
              [ {| file_name := "c.txt"; file_type := "text/plain"; file_value := "gamma" |} ]
              {| file_name := "b.txt"; file_type := "text/plain"; file_value := "beta" |}
              unavailable [] [])
    as [evs [Hrun [Hdocs _]]].
  - intros file _. split; eexists; reflexivity.
  - intros [ | k] file Hk; [reflexivity | ].
    destruct k; discriminate Hk.
  - right. right. split; [split; eexists; reflexivity | reflexivity].
  - exists evs. split; [exact Hrun | ].
    rewrite Hdocs. reflexivity.
Defined.

End DocumentRRuns.

(** ** The upload of a supporting document *)

Module BtaxStorageSpec.
Import DocumentR DocumentRSpec BtaxStorage.
#[local] Open Scope string_scope.
#[local] Open Scope list_scope.

Section Upload.
Variable env : environment.
Variable splitext : string -> string * string.
Variable fresh_uuid : string.
Variable business_id : string.

#[local] Notation "'upload'" :=
  (upload_document_to_firebase env splitext fresh_uuid business_id).

#[local] Notation "'blob_of' file" :=
  (blob_name_of splitext fresh_uuid business_id
     (strftime_now env "%Y%m%d_%H%M%S") file)
  (at level 10, file at level 9).

(** X14.  The upload of a supporting document never raises.  Without a
    file it returns [None] and asks nothing of the storage; when the
    storage answers its four requests it returns the public URL of the
    blob [business_documents/<business>/<time>_<uuid><extension>], made
    public; when the storage refuses the upload itself it reports the
    error and returns [None], and the blob is not made public. *)
Theorem document_upload_outcome (file : uploaded_file) (tr : trace) :
  upload None tr = (Returns None, tr)
  /\ (exists result tr', upload (Some file) tr = (Returns result, tr'))
  /\ (forall bucket uploaded published url,
         storage_service env (count is_storage tr) Bucket = Returns bucket ->
         storage_service env (count is_storage tr + 1)
           (UploadFromString (blob_of file) (file_value file) (file_type file))
         = Returns uploaded ->
         storage_service env (count is_storage tr + 2)
           (MakePublic (blob_of file))
         = Returns published ->
         storage_service env (count is_storage tr + 3)
           (PublicUrl (blob_of file))
         = Returns url ->
         upload (Some file) tr
         = (Returns (Some url),
            tr ++ [ Storage Bucket;
                    Now "%Y%m%d_%H%M%S";
                    Storage (UploadFromString (blob_of file)
                               (file_value file) (file_type file));
                    Storage (MakePublic (blob_of file));
                    Storage (PublicUrl (blob_of file)) ]))
  /\ (forall bucket e,
         storage_service env (count is_storage tr) Bucket = Returns bucket ->
         storage_service env (count is_storage tr + 1)
           (UploadFromString (blob_of file) (file_value file) (file_type file))
         = Raises e ->
         upload (Some file) tr
         = (Returns None,
            tr ++ [ Storage Bucket;
                    Now "%Y%m%d_%H%M%S";
                    Storage (UploadFromString (blob_of file)
                               (file_value file) (file_type file));
                    Error ("Error uploading document: " ++ exn_text e)%string ])).
Proof.
  split; [reflexivity | ].
  unfold upload_document_to_firebase, try_except, now_strftime, storage,
    st_error, emit, ret, blob_name_of.
  unfold bind.
  rewrite !count_app. cbn [count filter is_storage List.length].
  rewrite <- !plus_n_O.
  replace (count is_storage tr + 1 + 1)%nat with (count is_storage tr + 2)%nat
    by lia.
  replace (count is_storage tr + 2 + 1)%nat with (count is_storage tr + 3)%nat
    by lia.
  split; [ | split].
  - destruct (storage_service env (count is_storage tr) Bucket);
      [ | eexists; eexists; reflexivity].
    destruct (storage_service env (count is_storage tr + 1) _);
      [ | eexists; eexists; reflexivity].
    destruct (storage_service env (count is_storage tr + 2) _);
      [ | eexists; eexists; reflexivity].
    destruct (storage_service env (count is_storage tr + 3) _);
      eexists; eexists; reflexivity.
  - intros bucket uploaded published url Hb Hu Hp Hurl.
    rewrite Hb, Hu, Hp, Hurl. rewrite <- !app_assoc. reflexivity.
  - intros bucket e Hb Hu.
    rewrite Hb, Hu. rewrite <- !app_assoc. reflexivity.
Qed.

End Upload.

Lemma document_upload_outcome_witness :
  upload_document_to_firebase storage_refusing sample_splitext "0b1c" "acme"
    (Some {| file_name := "invoice.pdf";
             file_type := "application/pdf";
             file_value := "%PDF" |}) []
  = (Returns None,
     [ Storage Bucket;
       Now "%Y%m%d_%H%M%S";
       Storage (UploadFromString
                  "business_documents/acme/20240101_120000_0b1c.pdf"
                  "%PDF" "application/pdf");
       Error "Error uploading document: 403 permission denied" ]).
Proof.
  exact (proj2 (proj2 (proj2
           (document_upload_outcome storage_refusing sample_splitext
              "0b1c" "acme"
              {| file_name := "invoice.pdf";
                 file_type := "application/pdf";
                 file_value := "%PDF" |} [])))
           "bucket"
           {| exn_class := "Forbidden"; exn_text := "403 permission denied" |}
           eq_refl eq_refl).
Defined.

End BtaxStorageSpec.
